(** * NADAC pricing tool: the join-and-select engine of [app.py]

    A shallow embedding of [process_files_with_adjusted_filtering] and the
    properties of it that the specification states.

    The engine receives three pandas DataFrames (as [pd.read_csv] builds
    them), rewrites their identifier columns, filters the reimbursement
    ledger, and emits one dictionary per row of the Top 100 table.

    Modelling choices, all made from the source:
    - a cell is a [value]: a missing cell ([NaN], and [None] in the output),
      a [str], an integer or a decimal number (a rational [Q]; every finite
      float is one, and [<] on them is [Qlt]);
    - a DataFrame is its list of column labels and its rows, a row being a
      finite map from column label to cell; a label of the frame that a row
      does not bind reads as a missing cell, as when a frame is built from
      records of different shapes;
    - the column assignments [df["NDC"] = ...] mutate the caller's frames,
      so the engine is a state transformer over the three frames;
    - [st.stop()] and Python exceptions end the run without an output table;
    - [sort_values] is called with the default [kind], which pandas
      documents as not stable: the engine is parametrised by a sorting
      algorithm that returns a descending permutation of its input, and
      [quicksort_kind] is the default one, numpy's quicksort as pandas calls
      it;
    - [str] of a float is CPython's [repr], taken as a parameter. *)

From Stdlib Require Import QArith Ascii String.
From stdpp Require Import base strings gmap list sorting pretty.

Local Open Scope string_scope.
Local Open Scope list_scope.

(** ** Python strings *)

Module PyStr.

Fixpoint zeros (n : nat) : string :=
    match n with
    | O => EmptyString
    | S k => String "0"%char (zeros k)
    end.

Definition is_sign (c : ascii) : bool :=
    Ascii.eqb c "+"%char || Ascii.eqb c "-"%char.

  (** [str.zfill(width)], which [Series.str.zfill] applies to every element
      (pandas 2): a string at least [width] long is returned as it is; the
      padding goes after a leading sign. *)
Definition zfill (width : nat) (s : string) : string :=
    if Nat.leb width (String.length s) then s
    else
      let fill := zeros (width - String.length s) in
      match s with
      | String c rest => if is_sign c then String c (fill +:+ rest) else fill +:+ s
      | EmptyString => fill
      end.

  (** [s.split('.')[0]]: the part of [s] before its first dot. *)
Fixpoint before_dot (s : string) : string :=
    match s with
    | EmptyString => EmptyString
    | String c rest => if Ascii.eqb c "."%char then EmptyString else String c (before_dot rest)
    end.

Fixpoint has_dot (s : string) : bool :=
    match s with
    | EmptyString => false
    | String c rest => Ascii.eqb c "."%char || has_dot rest
    end.

  (** [str.lower()] on ASCII letters. *)
Definition lower_char (c : ascii) : ascii :=
    let n := Ascii.nat_of_ascii c in
    if Nat.leb 65 n && Nat.leb n 90 then Ascii.ascii_of_nat (n + 32) else c.

Fixpoint lower (s : string) : string :=
    match s with
    | EmptyString => EmptyString
    | String c rest => String (lower_char c) (lower rest)
    end.

  (** [s.replace(' ', '_')]. *)
Fixpoint replace_space (s : string) : string :=
    match s with
    | EmptyString => EmptyString
    | String c rest => String (if Ascii.eqb c " "%char then "_"%char else c) (replace_space rest)
    end.

Lemma length_zeros n : String.length (zeros n) = n.
  Proof. induction n as [|n IH]; simpl; [reflexivity | now rewrite IH]. Qed.

Lemma length_app (a b : string) :
    String.length (a +:+ b) = String.length a + String.length b.
  Proof. induction a as [|c a IH]; simpl; [reflexivity | now rewrite IH]. Qed.

Lemma zfill_long width s : width <= String.length s -> zfill width s = s.
  Proof.
    intros H. unfold zfill.
    destruct (Nat.leb_spec width (String.length s)) as [_|Hlt]; [reflexivity | lia].
  Qed.

Lemma length_zfill width s :
    String.length (zfill width s) = Nat.max width (String.length s).
  Proof.
    unfold zfill.
    destruct (Nat.leb_spec width (String.length s)) as [Hle|Hlt]; [lia|].
    destruct s as [|c rest]; simpl in *.
    - rewrite length_zeros. lia.
    - destruct (is_sign c); simpl; rewrite length_app, length_zeros; simpl; lia.
  Qed.

Lemma zfill_idem width s : zfill width (zfill width s) = zfill width s.
  Proof. apply zfill_long. rewrite length_zfill. lia. Qed.

Lemma before_dot_no_dot s : has_dot s = false -> before_dot s = s.
  Proof.
    induction s as [|c s IH]; simpl; [reflexivity|].
    destruct (Ascii.eqb c "."%char); simpl; [discriminate|].
    intros H. now rewrite IH.
  Qed.

Lemma has_dot_before_dot s : has_dot (before_dot s) = false.
  Proof.
    induction s as [|c s IH]; simpl; [reflexivity|].
    destruct (Ascii.eqb c "."%char) eqn:E; simpl; [reflexivity|].
    now rewrite E, IH.
  Qed.

Lemma has_dot_zeros n : has_dot (zeros n) = false.
  Proof. induction n as [|n IH]; simpl; [reflexivity | exact IH]. Qed.

Lemma has_dot_app a b : has_dot (a +:+ b) = has_dot a || has_dot b.
  Proof.
    induction a as [|c a IH]; simpl; [reflexivity|].
    rewrite IH. now rewrite orb_assoc.
  Qed.

Lemma has_dot_zfill width s : has_dot (zfill width s) = has_dot s.
  Proof.
    unfold zfill. destruct (Nat.leb width (String.length s)); [reflexivity|].
    destruct s as [|c rest]; simpl.
    - apply has_dot_zeros.
    - destruct (is_sign c) eqn:Hs; simpl.
      + now rewrite has_dot_app, has_dot_zeros.
      + now rewrite has_dot_app, has_dot_zeros.
  Qed.

End PyStr.

(** ** Cells, frames and results *)

(** A cell of a DataFrame, or a value of an output dictionary. [VNull] is the
    missing value: [NaN] in a frame ([pd.read_csv] never yields [None]),
    [NaN] or [None] in the output. *)
Inductive value :=
  | VNull
  | VStr (s : string)
  | VInt (z : Z)
  | VNum (q : Q).

Abbreviation row := (gmap string value).

Record DataFrame := {
  columns : list string;
  rows : list row
}.

(** The three arguments of the engine; the caller keeps references to them. *)
Record Frames := {
  top_100_data : DataFrame;
  nadac_data : DataFrame;
  reimbursement_data : DataFrame
}.

(** The dictionary appended to [output_rows]. *)
Record OutputRecord := {
  Drug_Name : value;
  NDC : value;
  NADAC : value;
  Bin : value;
  PCN : value;
  Network : value;
  Reimbursement : value;
  Price : value
}.

Inductive exn := NameError | TypeError | IndexError.

(** How a call ends: [return output_data], [st.error(message); st.stop()],
    or a Python exception. *)
Inductive outcome :=
  | Returned (output_data : list OutputRecord)
  | Stopped (message : string)
  | Raised (e : exn).

(** [r[c]] for a column [c] of the frame. *)
Definition cell (r : row) (c : string) : value := default VNull (r !! c).

(** [Series.get(key, dflt)] on a row of a frame with columns [cols]: the
    default is returned only when [key] is not a label of the row. *)
Definition series_get (cols : list string) (r : row) (key : string) (dflt : value) : value :=
  if bool_decide (key ∈ cols) then cell r key else dflt.

(** [df[c] = f(df[c])]: the column is rewritten in the frame itself. *)
Definition set_column (c : string) (f : value → value) (df : DataFrame) : DataFrame :=
  {| columns := if bool_decide (c ∈ columns df) then columns df else columns df ++ [c];
     rows := (λ r : row, <[c := f (cell r c)]> r) <$> rows df |}.

(** The rows of a frame with their index labels ([RangeIndex]). *)
Definition enumerate (l : list row) : list (nat * row) := imap (λ i r, (i, r)) l.

(** A str cell read as a string (the identifier columns hold str once they
    are standardized). *)
Definition str_value (v : value) : string :=
  match v with
  | VStr s => s
  | _ => EmptyString
  end.

(** [fillna(0)] and [> 0] on one element; a str against [0] is a
    [TypeError]. *)
Definition fillna (fill : value) (v : value) : value :=
  match v with
  | VNull => fill
  | _ => v
  end.

Definition gt_zero (v : value) : option bool :=
  match v with
  | VNull => Some false
  | VStr _ => None
  | VInt z => Some (0 <? z)%Z
  | VNum q => Some (negb (Qle_bool q 0))
  end.

(** The sort key of [sort_values(by="Primary Remit Amount")]; the sorted
    frames hold numbers only, the filter has run before. *)
Definition amount_key (r : row) : Q :=
  match cell r "Primary Remit Amount" with
  | VInt z => inject_Z z
  | VNum q => q
  | _ => 0%Q
  end.

(** [DataFrame.sort_values(by=..., ascending=False)] with the default
    [kind]: some permutation of the rows with the keys in descending order;
    the order of rows with equal keys is the algorithm's own. *)
Record SortKind := {
  sort_values : list (nat * row) → list (nat * row);
  sort_values_perm : ∀ l, sort_values l ≡ₚ l;
  sort_values_desc : ∀ l,
    StronglySorted (λ a b : nat * row, (amount_key b.2 <= amount_key a.2)%Q) (sort_values l)
}.

Definition Not_Available : value := VStr "Not Available".

Definition required_columns : list (string * list string) :=
  [ ("Top 100", ["NDC"; "Drug"]);
    ("NADAC", ["NDC"; "NADAC Per Unit"]);
    ("Reimbursement", ["Dispensed Item NDC"; "Primary Remit Amount"]) ].

(** [eval(name)] in the scope of the function, for the names the loop
    builds. *)
Definition eval_name (name : string) (fr : Frames) : option DataFrame :=
  if String.eqb name "top_100_data" then Some (top_100_data fr)
  else if String.eqb name "nadac_data" then Some (nadac_data fr)
  else if String.eqb name "reimbursement_data" then Some (reimbursement_data fr)
  else None.

Definition data_name (file_name : string) : string :=
  PyStr.replace_space (PyStr.lower file_name) +:+ "_data".

Definition error_message (file_name column : string) : string :=
  file_name +:+ " file must contain '" +:+ column +:+ "' column.".

Fixpoint check_columns (file_name : string) (df : DataFrame) (cols : list string)
  : option outcome :=
  match cols with
  | [] => None
  | column :: cols' =>
      if bool_decide (column ∈ columns df) then check_columns file_name df cols'
      else Some (Stopped (error_message file_name column))
  end.

(** The validation loop: [None] when it falls through. *)
Fixpoint validate (fr : Frames) (req : list (string * list string)) : option outcome :=
  match req with
  | [] => None
  | (file_name, cols) :: req' =>
      match eval_name (data_name file_name) fr with
      | None => Some (Raised NameError)
      | Some df =>
          match check_columns file_name df cols with
          | Some o => Some o
          | None => validate fr req'
          end
      end
  end.

(** [df[df["Primary Remit Amount"].fillna(0) > 0]] on the indexed rows. *)
Fixpoint positive_remit (l : list (nat * row)) : option (list (nat * row)) :=
  match l with
  | [] => Some []
  | ir :: l' =>
      match gt_zero (fillna (VInt 0) (cell ir.2 "Primary Remit Amount")) with
      | None => None
      | Some b =>
          match positive_remit l' with
          | None => None
          | Some keep => Some (if b then ir :: keep else keep)
          end
      end
  end.

(** [set_index("NDC")["NADAC Per Unit"].to_dict()]: a later row overwrites
    an earlier one with the same key. *)
Definition to_dict (l : list row) : gmap string value :=
  foldl (λ (m : gmap string value) (r : row),
           <[str_value (cell r "NDC") := cell r "NADAC Per Unit"]> m) ∅ l.

(** The rows of the filtered ledger with the identifier [ndc]. *)
Definition reimbursement_match (valid : list (nat * row)) (ndc : string) : list (nat * row) :=
  filter (λ ir : nat * row, str_value (cell ir.2 "Dispensed Item NDC") = ndc) valid.

(** [sort_values(...).iloc[0]] when the match is not empty. *)
Definition best_match (K : SortKind) (valid : list (nat * row)) (ndc : string)
  : option (option (nat * row)) :=
  match reimbursement_match valid ndc with
  | [] => Some None
  | matched =>
      match sort_values K matched with
      | best :: _ => Some (Some best)
      | [] => None
      end
  end.

Section Engine.

  (** [repr] of a float. *)
Variable float_repr : Q → string.

  (** [astype(str)] on one element. *)
Definition astype_str (v : value) : string :=
    match v with
    | VNull => "nan"
    | VStr s => s
    | VInt z => pretty z
    | VNum q => float_repr q
    end.

  (** [.astype(str).str.zfill(11)] *)
Definition standardize_ndc (v : value) : value :=
    VStr (PyStr.zfill 11 (astype_str v)).

  (** [.astype(str).str.split('.').str[0].str.zfill(11)] *)
Definition standardize_dispensed_ndc (v : value) : value :=
    VStr (PyStr.zfill 11 (PyStr.before_dot (astype_str v))).

Definition standardize (fr : Frames) : Frames :=
    {| top_100_data := set_column "NDC" standardize_ndc (top_100_data fr);
       nadac_data := set_column "NDC" standardize_ndc (nadac_data fr);
       reimbursement_data :=
         set_column "Dispensed Item NDC" standardize_dispensed_ndc (reimbursement_data fr) |}.

Variable K : SortKind.

  (** The body of the loop over [top_100_data.iterrows()]; [None] is the
      [IndexError] of [iloc[0]] on an empty frame. *)
Definition output_row (cols : list string) (valid : list (nat * row))
      (nadac_lookup : gmap string value) (r : row) : option OutputRecord :=
    let ndc := cell r "NDC" in
    let drug_name := cell r "Drug" in
    let nadac_price := default VNull (nadac_lookup !! str_value ndc) in
    match best_match K valid (str_value ndc) with
    | None => None
    | Some sel =>
        let '(bin_code, pcn, network, reimbursement) :=
          match sel with
          | Some best =>
              (series_get cols best.2 "Primary Third Party Bin" Not_Available,
               series_get cols best.2 "Primary Third Party PCN" Not_Available,
               series_get cols best.2 "Primary Network Reimbursement" Not_Available,
               series_get cols best.2 "Primary Remit Amount" (VNum 0))
          | None => (Not_Available, Not_Available, Not_Available, VNum 0)
          end in
        Some {| Drug_Name := drug_name;
                NDC := ndc;
                NADAC := nadac_price;
                Bin := bin_code;
                PCN := pcn;
                Network := network;
                Reimbursement := reimbursement;
                Price := VNull |}
    end.

Definition process_files_with_adjusted_filtering (fr : Frames) : outcome * Frames :=
    match validate fr required_columns with
    | Some o => (o, fr)
    | None =>
        let fr := standardize fr in
        match positive_remit (enumerate (rows (reimbursement_data fr))) with
        | None => (Raised TypeError, fr)
        | Some valid_reimbursement_data =>
            let nadac_lookup := to_dict (rows (nadac_data fr)) in
            match mapM (output_row (columns (reimbursement_data fr))
                          valid_reimbursement_data nadac_lookup)
                       (rows (top_100_data fr)) with
            | Some output_rows => (Returned output_rows, fr)
            | None => (Raised IndexError, fr)
            end
        end
    end.

End Engine.

(** ** Two sorting algorithms *)

(** Insertion sort into descending order. [before a b] decides whether a row
    with key [a] is placed in front of a row with key [b] met while
    scanning. *)
Section Insertion.

Variable before : Q → Q → bool.
Hypothesis before_true : ∀ a b, before a b = true → (b <= a)%Q.
Hypothesis before_false : ∀ a b, before a b = false → (a <= b)%Q.

Fixpoint insert_row (x : nat * row) (l : list (nat * row)) : list (nat * row) :=
    match l with
    | [] => [x]
    | y :: l' =>
        if before (amount_key x.2) (amount_key y.2) then x :: l
        else y :: insert_row x l'
    end.

Definition insertion_sort (l : list (nat * row)) : list (nat * row) :=
    foldr insert_row [] l.

Lemma insert_row_perm x l : insert_row x l ≡ₚ x :: l.
  Proof.
    induction l as [|y l IH]; simpl; [reflexivity|].
    destruct (before _ _); [reflexivity|].
    rewrite IH. apply Permutation_swap.
  Qed.

Lemma insertion_sort_perm l : insertion_sort l ≡ₚ l.
  Proof.
    induction l as [|x l IH]; simpl; [reflexivity|].
    rewrite insert_row_perm. now rewrite IH.
  Qed.

Lemma insert_row_sorted x l :
    StronglySorted (λ a b : nat * row, (amount_key b.2 <= amount_key a.2)%Q) l →
    StronglySorted (λ a b : nat * row, (amount_key b.2 <= amount_key a.2)%Q) (insert_row x l).
  Proof.
    induction l as [|y l IH]; simpl; intros Hs.
    - repeat constructor.
    - apply StronglySorted_cons in Hs as [Hy Hl].
      destruct (before _ _) eqn:Hb.
      + apply StronglySorted_cons. split.
        * apply before_true in Hb. constructor; [exact Hb|].
          eapply Forall_impl; [exact Hy|]. simpl. intros z Hz.
          eapply Qle_trans; [exact Hz | exact Hb].
        * apply StronglySorted_cons. now split.
      + apply before_false in Hb.
        apply StronglySorted_cons. split; [|now apply IH].
        rewrite insert_row_perm. now constructor.
  Qed.

Lemma insertion_sort_sorted l :
    StronglySorted (λ a b : nat * row, (amount_key b.2 <= amount_key a.2)%Q) (insertion_sort l).
  Proof.
    induction l as [|x l IH]; simpl; [constructor|].
    now apply insert_row_sorted.
  Qed.

End Insertion.

(** Earlier rows stay in front of later rows with the same key. *)
Definition stable_before (a b : Q) : bool := Qle_bool b a.

Lemma stable_before_true a b : stable_before a b = true → (b <= a)%Q.
Proof. unfold stable_before. now rewrite Qle_bool_iff. Qed.

Lemma stable_before_false a b : stable_before a b = false → (a <= b)%Q.
Proof.
  unfold stable_before. intros H. apply Qlt_le_weak, Qnot_le_lt.
  rewrite <- Qle_bool_iff. now rewrite H.
Qed.

Definition stable_kind : SortKind :=
  {| sort_values := insertion_sort stable_before;
     sort_values_perm := insertion_sort_perm stable_before;
     sort_values_desc :=
       insertion_sort_sorted stable_before stable_before_true stable_before_false |}.

(** ** The default sort of [sort_values]

    [sort_values(by=..., ascending=False)] computes an indexer with pandas'
    [nargsort]: the keys are reversed, numpy's [argsort] with
    [kind="quicksort"] sorts them in ascending order, and the result is
    reversed again. numpy's quicksort is an introsort on the array of
    indices: a segment of more than [SMALL_QUICKSORT] elements is partitioned
    around the median of three, a shorter one is sorted by insertion, and a
    segment met too deep is heap-sorted. The arrays are lists here, a pointer
    is a position, and each loop carries its bound. *)

Module Numpy.

Definition SMALL_QUICKSORT : nat := 16.

(** [Tag::less] on floats that are not NaN. *)
Definition less (x y : Q) : bool := negb (Qle_bool y x).

(** [*p] for a position of the index array, and [v[*p]]. *)
Definition get (a : list nat) (i : nat) : nat := default 0 (a !! i).

Definition val (v : list Q) (a : list nat) (i : nat) : Q := default 0%Q (v !! get a i).

Definition key (v : list Q) (i : nat) : Q := default 0%Q (v !! i).

(** [INTP_SWAP] of the indices at two positions. *)
Definition swap (a : list nat) (i j : nat) : list nat :=
  <[i := get a j]> (<[j := get a i]> a).

(** [do { ++pi; } while (less(v[*pi], vp))], entered at the incremented
    position. *)
Fixpoint scan_up (fuel : nat) (v : list Q) (a : list nat) (vp : Q) (pi : nat) : nat :=
  match fuel with
  | O => pi
  | S f => if less (val v a pi) vp then scan_up f v a vp (S pi) else pi
  end.

(** [do { --pj; } while (less(vp, v[*pj]))] *)
Fixpoint scan_down (fuel : nat) (v : list Q) (a : list nat) (vp : Q) (pj : nat) : nat :=
  match fuel with
  | O => pj
  | S f => if less vp (val v a pj) then scan_down f v a vp (pj - 1) else pj
  end.

(** The [for (;;)] loop of the partition. *)
Fixpoint exchange (fuel : nat) (v : list Q) (a : list nat) (vp : Q) (pi pj : nat)
  : list nat * nat :=
  match fuel with
  | O => (a, pi)
  | S f =>
      let pi := scan_up (length a) v a vp (S pi) in
      let pj := scan_down (length a) v a vp (pj - 1) in
      if (pj <=? pi)%nat then (a, pi) else exchange f v (swap a pi pj) vp pi pj
  end.

(** One partition of the segment from [pl] to [pr]: the median of three goes
    to [pr - 1] as the pivot, and the pivot ends at the returned position. *)
Definition partition (v : list Q) (a : list nat) (pl pr : nat) : list nat * nat :=
  let pm := pl + (pr - pl) / 2 in
  let a := if less (val v a pm) (val v a pl) then swap a pm pl else a in
  let a := if less (val v a pr) (val v a pm) then swap a pr pm else a in
  let a := if less (val v a pm) (val v a pl) then swap a pm pl else a in
  let vp := val v a pm in
  let a := swap a pm (pr - 1) in
  let '(a, pi) := exchange (length a) v a vp pl (pr - 1) in
  (swap a pi (pr - 1), pi).

(** [while (pj > pl && less(vp, v[*pk])) { *pj-- = *pk--; }] *)
Fixpoint shift (fuel : nat) (v : list Q) (a : list nat) (pl : nat) (vp : Q) (pj : nat)
  : list nat * nat :=
  match fuel with
  | O => (a, pj)
  | S f =>
      if (pl <? pj)%nat && less vp (val v a (pj - 1))
      then shift f v (<[pj := get a (pj - 1)]> a) pl vp (pj - 1)
      else (a, pj)
  end.

Definition insert_at (v : list Q) (pl : nat) (a : list nat) (pi : nat) : list nat :=
  let vi := get a pi in
  let '(a, pj) := shift (length a) v a pl (key v vi) pi in
  <[pj := vi]> a.

(** The insertion sort of the segment from [pl] to [pr]. *)
Definition insertion (v : list Q) (a : list nat) (pl pr : nat) : list nat :=
  foldl (insert_at v pl) a (seq (S pl) (pr - pl)).

(** [aheapsort_]: the array is indexed from 1. *)
Definition get1 (s : list nat) (k : nat) : nat := get s (k - 1).

Definition set1 (s : list nat) (k x : nat) : list nat := <[k - 1 := x]> s.

Fixpoint sift (fuel : nat) (v : list Q) (s : list nat) (tmp i j n : nat) : list nat :=
  match fuel with
  | O => set1 s i tmp
  | S f =>
      if (j <=? n)%nat then
        let j := if (j <? n)%nat && less (key v (get1 s j)) (key v (get1 s (j + 1)))
                 then j + 1 else j in
        if less (key v tmp) (key v (get1 s j))
        then sift f v (set1 s i (get1 s j)) tmp j (j + j) n
        else set1 s i tmp
      else set1 s i tmp
  end.

Definition heapify (v : list Q) (s : list nat) (n : nat) : list nat :=
  foldl (λ s l, sift n v s (get1 s l) l (l + l) n) s (rev (seq 1 (n / 2))).

Fixpoint extract (fuel : nat) (v : list Q) (s : list nat) (n : nat) : list nat :=
  match fuel with
  | O => s
  | S f =>
      if (1 <? n)%nat then
        let tmp := get1 s n in
        let s := set1 s n (get1 s 1) in
        extract f v (sift n v s tmp 1 2 (n - 1)) (n - 1)
      else s
  end.

Definition heapsort (v : list Q) (s : list nat) : list nat :=
  extract (length s) v (heapify v s (length s)) (length s).

Definition heapsort_segment (v : list Q) (a : list nat) (pl pr : nat) : list nat :=
  take pl a ++ heapsort v (take (S pr - pl) (drop pl a)) ++ drop (S pr) a.

(** [aquicksort_] on the segment from [pl] to [pr]. The source keeps the
    larger part of a partition on a stack and goes on with the smaller one;
    the parts are disjoint, so they are sorted here one after the other. A
    part taken from the stack with a negative depth is heap-sorted. *)
Fixpoint quicksort_segment (fuel : nat) (v : list Q) (a : list nat) (pl pr : nat)
    (cdepth : Z) : list nat :=
  match fuel with
  | O => a
  | S f =>
      if (SMALL_QUICKSORT <? S pr - pl)%nat then
        let '(a, pi) := partition v a pl pr in
        let cdepth := (cdepth - 1)%Z in
        let popped (a : list nat) (ql qr : nat) : list nat :=
          if (cdepth <? 0)%Z then heapsort_segment v a ql qr
          else quicksort_segment f v a ql qr cdepth in
        if (pi - pl <? pr - pi)%nat
        then popped (quicksort_segment f v a pl (pi - 1) cdepth) (pi + 1) pr
        else popped (quicksort_segment f v a (pi + 1) pr cdepth) pl (pi - 1)
      else insertion v a pl pr
  end.

(** [np.argsort(v, kind="quicksort")] *)
Definition argsort (v : list Q) : list nat :=
  let num := length v in
  quicksort_segment (S num) v (seq 0 num) 0 (num - 1) (2 * Z.log2 (Z.of_nat num)).

End Numpy.

(** pandas' [nargsort(items, kind="quicksort", ascending=False)] on keys
    without NaN. *)
Definition nargsort_desc (items : list Q) : list nat :=
  let n := length items in
  rev ((λ p, n - 1 - p) <$> Numpy.argsort (rev items)).

(** [DataFrame.take(indexer)] *)
Definition take_rows (l : list (nat * row)) (indexer : list nat) : list (nat * row) :=
  (λ i, default (0, ∅) (l !! i)) <$> indexer.

(** The indexer holds each position of a frame of [n] rows once. *)
Definition is_indexer (n : nat) (indexer : list nat) : bool :=
  bool_decide (NoDup indexer) && forallb (λ i, (i <? n)%nat) indexer && (length indexer =? n)%nat.

(** No row has a key above the key of a row before it. *)
Fixpoint descending (l : list (nat * row)) : bool :=
  match l with
  | [] => true
  | x :: l' =>
      forallb (λ y : nat * row, Qle_bool (amount_key y.2) (amount_key x.2)) l'
      && descending l'
  end.

(** The rows in the order of the indexer that pandas computes. The order is
    used once it is checked to be a descending arrangement of the rows, which
    is what a sort returns; the check spares a proof of the introsort, and
    the insertion sort behind it is there to make the function total. *)
Definition sort_values_quicksort (l : list (nat * row)) : list (nat * row) :=
  let indexer := nargsort_desc ((λ ir : nat * row, amount_key ir.2) <$> l) in
  let sorted := take_rows l indexer in
  if is_indexer (length l) indexer && descending sorted then sorted
  else insertion_sort stable_before l.

Lemma is_indexer_perm n indexer : is_indexer n indexer = true → indexer ≡ₚ seq 0 n.
Proof.
  unfold is_indexer. rewrite !andb_true_iff, bool_decide_eq_true, Nat.eqb_eq.
  intros [[Hnd Hlt] Hlen].
  apply submseteq_length_Permutation; [|rewrite length_seq; lia].
  apply NoDup_submseteq; [exact Hnd|].
  intros x Hx. apply elem_of_seq. rewrite forallb_forall in Hlt.
  apply list_elem_of_In, Hlt, Nat.ltb_lt in Hx. lia.
Qed.

Lemma take_rows_range (l : list (nat * row)) : take_rows l (seq 0 (length l)) = l.
Proof.
  unfold take_rows. apply list_eq. intros i. rewrite list_lookup_fmap.
  destruct (decide (i < length l)) as [Hi|Hi].
  - rewrite lookup_seq_lt by exact Hi. simpl.
    destruct (lookup_lt_is_Some_2 l i Hi) as [x Hx]. now rewrite Hx.
  - rewrite lookup_seq_ge by lia. simpl. symmetry. apply lookup_ge_None. lia.
Qed.

Lemma descending_sorted (l : list (nat * row)) :
  descending l = true →
  StronglySorted (λ a b : nat * row, (amount_key b.2 <= amount_key a.2)%Q) l.
Proof.
  induction l as [|x l IH]; simpl; [constructor|].
  rewrite andb_true_iff. intros [Hx Hl]. constructor; [now apply IH|].
  apply Forall_forall. intros y Hy. rewrite forallb_forall in Hx.
  apply Qle_bool_iff, Hx. now apply list_elem_of_In.
Qed.

Lemma sort_values_quicksort_perm l : sort_values_quicksort l ≡ₚ l.
Proof.
  unfold sort_values_quicksort.
  destruct (is_indexer _ _ && descending _) eqn:E; [|apply insertion_sort_perm].
  apply andb_true_iff in E as [Hi _]. apply is_indexer_perm in Hi.
  unfold take_rows. rewrite Hi. apply (reflexive_eq _ _ (take_rows_range l)).
Qed.

Lemma sort_values_quicksort_desc l :
  StronglySorted (λ a b : nat * row, (amount_key b.2 <= amount_key a.2)%Q)
                 (sort_values_quicksort l).
Proof.
  unfold sort_values_quicksort.
  destruct (is_indexer _ _ && descending _) eqn:E.
  - apply andb_true_iff in E as [_ Hd]. now apply descending_sorted.
  - apply insertion_sort_sorted; [apply stable_before_true | apply stable_before_false].
Qed.

(** The default [kind] of [sort_values]. *)
Definition quicksort_kind : SortKind :=
  {| sort_values := sort_values_quicksort;
     sort_values_perm := sort_values_quicksort_perm;
     sort_values_desc := sort_values_quicksort_desc |}.

(** ** The example of the specification *)

Module Example.

  (** A [repr] for the decimals of the examples: integral values print with
      a [.0] suffix. *)
Definition float_repr (q : Q) : string :=
    pretty (Qnum q / Zpos (Qden q))%Z +:+ ".0".

Definition products : DataFrame :=
    {| columns := ["NDC"; "Drug"];
       rows := [ {[ "NDC" := VStr "123"; "Drug" := VStr "Aspirin" ]} ] |}.

Definition prices : DataFrame :=
    {| columns := ["NDC"; "NADAC Per Unit"];
       rows := [ {[ "NDC" := VStr "00000000123"; "NADAC Per Unit" := VNum (45 # 100) ]} ] |}.

Definition ledger : DataFrame :=
    {| columns := ["Dispensed Item NDC"; "Primary Remit Amount";
                   "Primary Network Reimbursement"; "Primary Third Party Bin"];
       rows := [ {[ "Dispensed Item NDC" := VStr "123.0";
                    "Primary Remit Amount" := VNum (25 # 2);
                    "Primary Network Reimbursement" := VStr "NET1" ]};
                 {[ "Dispensed Item NDC" := VStr "00000000123";
                    "Primary Remit Amount" := VNum 8;
                    "Primary Third Party Bin" := VStr "610014" ]} ] |}.

Definition inputs : Frames :=
    {| top_100_data := products; nadac_data := prices; reimbursement_data := ledger |}.

End Example.

(** ** Predicates on the inputs *)

(** Every fixed required column is in its table. *)
Definition has_required_columns (fr : Frames) : bool :=
  bool_decide ("NDC" ∈ columns (top_100_data fr))
  && bool_decide ("Drug" ∈ columns (top_100_data fr))
  && bool_decide ("NDC" ∈ columns (nadac_data fr))
  && bool_decide ("NADAC Per Unit" ∈ columns (nadac_data fr))
  && bool_decide ("Dispensed Item NDC" ∈ columns (reimbursement_data fr))
  && bool_decide ("Primary Remit Amount" ∈ columns (reimbursement_data fr)).

Definition is_str (v : value) : bool :=
  match v with
  | VStr _ => true
  | _ => false
  end.

(** The remit amounts are numbers or missing (a nullable decimal column). *)
Definition numeric_amounts (df : DataFrame) : bool :=
  forallb (λ r : row, negb (is_str (cell r "Primary Remit Amount"))) (rows df).

Definition valid_inputs (fr : Frames) : bool :=
  has_required_columns fr && numeric_amounts (reimbursement_data fr).

(** The number a cell holds. *)
Definition number (v : value) : option Q :=
  match v with
  | VInt z => Some (inject_Z z)
  | VNum q => Some q
  | _ => None
  end.

(** ** Lemmas on the steps of the engine *)

Section Steps.

Lemma cell_insert_eq (r : row) c v : cell (<[c := v]> r) c = v.
  Proof. unfold cell. now rewrite lookup_insert_eq. Qed.

Lemma cell_insert_ne (r : row) c c' v : c ≠ c' → cell (<[c := v]> r) c' = cell r c'.
  Proof. intros H. unfold cell. now rewrite lookup_insert_ne. Qed.

Lemma amount_key_insert (r : row) c v :
    c ≠ "Primary Remit Amount" → amount_key (<[c := v]> r) = amount_key r.
  Proof. intros H. unfold amount_key. now rewrite cell_insert_ne. Qed.

Lemma elem_of_enumerate (l : list row) i r : (i, r) ∈ enumerate l ↔ l !! i = Some r.
  Proof.
    unfold enumerate. rewrite elem_of_lookup_imap. split.
    - intros (j & y & Heq & Hl). now inversion Heq; subst.
    - intros Hl. now exists i, r.
  Qed.

  (** *** Validation *)

Lemma validate_pass fr :
    has_required_columns fr = true → validate fr required_columns = None.
  Proof.
    unfold has_required_columns. rewrite !andb_true_iff, !bool_decide_eq_true.
    intros [[[[[H1 H2] H3] H4] H5] H6].
    cbn [validate required_columns check_columns].
    change (eval_name (data_name "Top 100") fr) with (Some (top_100_data fr)).
    change (eval_name (data_name "NADAC") fr) with (Some (nadac_data fr)).
    change (eval_name (data_name "Reimbursement") fr) with (Some (reimbursement_data fr)).
    cbv beta iota.
    now rewrite !bool_decide_eq_true_2 by assumption.
  Qed.

Lemma validate_stop fr :
    has_required_columns fr = false →
    ∃ file cols column df,
      (file, cols) ∈ required_columns ∧ column ∈ cols ∧
      eval_name (data_name file) fr = Some df ∧ (column ∉ columns df) ∧
      validate fr required_columns = Some (Stopped (error_message file column)).
  Proof.
    unfold has_required_columns. intros H.
    cbn [validate required_columns check_columns].
    change (eval_name (data_name "Top 100") fr) with (Some (top_100_data fr)).
    change (eval_name (data_name "NADAC") fr) with (Some (nadac_data fr)).
    change (eval_name (data_name "Reimbursement") fr) with (Some (reimbursement_data fr)).
    cbv beta iota.
    destruct (bool_decide ("NDC" ∈ columns (top_100_data fr))) eqn:E1.
    2:{ apply bool_decide_eq_false in E1.
        exists "Top 100", ["NDC"; "Drug"], "NDC", (top_100_data fr).
        repeat split; [set_solver | set_solver | exact E1]. }
    destruct (bool_decide ("Drug" ∈ columns (top_100_data fr))) eqn:E2.
    2:{ apply bool_decide_eq_false in E2.
        exists "Top 100", ["NDC"; "Drug"], "Drug", (top_100_data fr).
        repeat split; [set_solver | set_solver | exact E2]. }
    destruct (bool_decide ("NDC" ∈ columns (nadac_data fr))) eqn:E3.
    2:{ apply bool_decide_eq_false in E3.
        exists "NADAC", ["NDC"; "NADAC Per Unit"], "NDC", (nadac_data fr).
        repeat split; [set_solver | set_solver | exact E3]. }
    destruct (bool_decide ("NADAC Per Unit" ∈ columns (nadac_data fr))) eqn:E4.
    2:{ apply bool_decide_eq_false in E4.
        exists "NADAC", ["NDC"; "NADAC Per Unit"], "NADAC Per Unit", (nadac_data fr).
        repeat split; [set_solver | set_solver | exact E4]. }
    destruct (bool_decide ("Dispensed Item NDC" ∈ columns (reimbursement_data fr))) eqn:E5.
    2:{ apply bool_decide_eq_false in E5.
        exists "Reimbursement", ["Dispensed Item NDC"; "Primary Remit Amount"],
          "Dispensed Item NDC", (reimbursement_data fr).
        repeat split; [set_solver | set_solver | exact E5]. }
    destruct (bool_decide ("Primary Remit Amount" ∈ columns (reimbursement_data fr))) eqn:E6.
    2:{ apply bool_decide_eq_false in E6.
        exists "Reimbursement", ["Dispensed Item NDC"; "Primary Remit Amount"],
          "Primary Remit Amount", (reimbursement_data fr).
        repeat split; [set_solver | set_solver | exact E6]. }
    discriminate H.
  Qed.

Lemma validate_cases fr :
    (has_required_columns fr = true ∧ validate fr required_columns = None) ∨
    (has_required_columns fr = false ∧ ∃ o, validate fr required_columns = Some o).
  Proof.
    destruct (has_required_columns fr) eqn:E.
    - left. split; [reflexivity | now apply validate_pass].
    - right. split; [reflexivity|].
      destruct (validate_stop fr E) as (f & cs & c & df & _ & _ & _ & _ & Hv). eauto.
  Qed.

  (** *** The filter on the remit amount *)

Lemma gt_zero_fillna v b :
    gt_zero (fillna (VInt 0) v) = Some b →
    is_str v = false ∧
    (b = true ↔ ∃ q, number v = Some q ∧ (0 < q)%Q).
  Proof.
    destruct v as [|s|z|q]; simpl; intros H; inversion H; subst;
      (split; [reflexivity|]).
    - split; [discriminate | intros (q & Hq & _); discriminate].
    - split.
      + intros Hz. apply Z.ltb_lt in Hz. exists (inject_Z z). split; [reflexivity|].
        change 0%Q with (inject_Z 0). now rewrite <- Zlt_Qlt.
      + intros (q & Hq & Hlt). inversion Hq; subst. apply Z.ltb_lt.
        change 0%Q with (inject_Z 0) in Hlt. now rewrite <- Zlt_Qlt in Hlt.
    - split.
      + intros Hq. exists q. split; [reflexivity|]. apply Qnot_le_lt.
        rewrite <- Qle_bool_iff. now destruct (Qle_bool q 0).
      + intros (q' & Hq & Hlt). inversion Hq; subst.
        destruct (Qle_bool q' 0) eqn:E; [|reflexivity].
        apply Qle_bool_iff in E. exfalso. now apply (Qlt_not_le _ _ Hlt).
  Qed.

Lemma number_amount_key (r : row) q :
    number (cell r "Primary Remit Amount") = Some q → amount_key r = q.
  Proof. unfold amount_key. destruct (cell r _); simpl; congruence. Qed.

Lemma positive_remit_elem l valid :
    positive_remit l = Some valid →
    ∀ ir : nat * row, ir ∈ valid ↔
      ir ∈ l ∧ ∃ q, number (cell ir.2 "Primary Remit Amount") = Some q ∧ (0 < q)%Q.
  Proof.
    revert valid. induction l as [|x l IH]; simpl; intros valid H.
    - inversion H; subst. intros ir. rewrite !elem_of_nil. tauto.
    - destruct (gt_zero _) as [b|] eqn:Hb; [|discriminate].
      destruct (positive_remit l) as [keep|] eqn:Hk; [|discriminate].
      inversion H; subst; clear H.
      apply gt_zero_fillna in Hb as [_ Hb].
      specialize (IH keep eq_refl). intros ir.
      destruct b.
      + rewrite !elem_of_cons, IH. split.
        * intros [->|[? ?]]; [|tauto]. split; [now left|]. now apply Hb.
        * intros [[->|?] ?]; [now left | right; tauto].
      + rewrite elem_of_cons, IH. split; [tauto|].
        intros [[->|?] Hq]; [|tauto].
        apply Hb in Hq. discriminate.
  Qed.

Lemma positive_remit_total l :
    Forall (λ ir : nat * row, is_str (cell ir.2 "Primary Remit Amount") = false) l →
    ∃ valid, positive_remit l = Some valid.
  Proof.
    induction 1 as [|x l Hx _ [keep IH]]; simpl; [eauto|].
    rewrite IH.
    destruct (cell x.2 "Primary Remit Amount"); simpl in *; try discriminate; eauto.
  Qed.

Lemma positive_remit_str l :
    Exists (λ ir : nat * row, is_str (cell ir.2 "Primary Remit Amount") = true) l →
    positive_remit l = None.
  Proof.
    induction 1 as [x l Hx | x l _ IH]; simpl.
    - now destruct (cell x.2 "Primary Remit Amount").
    - rewrite IH. now destruct (gt_zero _).
  Qed.

  (** *** The selector *)

Variable K : SortKind.

Lemma sort_values_nonempty (l : list (nat * row)) :
    l ≠ [] → ∃ best rest, sort_values K l = best :: rest.
  Proof.
    intros Hl. destruct (sort_values K l) as [|b t] eqn:E; [|eauto].
    exfalso. apply Hl. apply Permutation_nil. rewrite <- E.
    apply sort_values_perm.
  Qed.

Lemma sort_values_head_max (l : list (nat * row)) best rest :
    sort_values K l = best :: rest →
    best ∈ l ∧ ∀ o, o ∈ l → (amount_key o.2 <= amount_key best.2)%Q.
  Proof.
    intros E. pose proof (sort_values_perm K l) as Hp.
    pose proof (sort_values_desc K l) as Hs. rewrite E in Hp, Hs.
    split.
    - rewrite <- Hp. now left.
    - intros o Ho. rewrite <- Hp in Ho.
      apply StronglySorted_cons in Hs as [Hall _].
      apply elem_of_cons in Ho as [->|Ho]; [apply Qle_refl|].
      rewrite Forall_forall in Hall. now apply Hall.
  Qed.

Lemma best_match_none valid ndc :
    reimbursement_match valid ndc = [] → best_match K valid ndc = Some None.
  Proof. unfold best_match. now intros ->. Qed.

Lemma best_match_some valid ndc :
    reimbursement_match valid ndc ≠ [] →
    ∃ best, best_match K valid ndc = Some (Some best) ∧
            best ∈ reimbursement_match valid ndc ∧
            ∀ o, o ∈ reimbursement_match valid ndc →
                 (amount_key o.2 <= amount_key best.2)%Q.
  Proof.
    intros Hne. unfold best_match.
    destruct (reimbursement_match valid ndc) as [|m ms] eqn:Em; [done|].
    destruct (sort_values_nonempty (m :: ms)) as (best & rest & E); [done|].
    rewrite E. exists best. split; [reflexivity|].
    now apply sort_values_head_max with rest.
  Qed.

Lemma best_match_total valid ndc : ∃ sel, best_match K valid ndc = Some sel.
  Proof.
    destruct (reimbursement_match valid ndc) as [|m ms] eqn:E.
    - exists None. now apply best_match_none.
    - destruct (best_match_some valid ndc) as (best & H & _); [now rewrite E|]. eauto.
  Qed.

Lemma best_match_inv valid ndc sel :
    best_match K valid ndc = Some sel →
    match sel with
    | None => reimbursement_match valid ndc = []
    | Some best =>
        best ∈ reimbursement_match valid ndc ∧
        ∀ o, o ∈ reimbursement_match valid ndc →
             (amount_key o.2 <= amount_key best.2)%Q
    end.
  Proof.
    intros H. destruct (reimbursement_match valid ndc) as [|m ms] eqn:E.
    - rewrite best_match_none in H by exact E. now inversion H.
    - destruct (best_match_some valid ndc) as (best & Hb & Hin & Hmax); [now rewrite E|].
      rewrite Hb in H. inversion H; subst. rewrite <- E. now split.
  Qed.

Lemma elem_of_reimbursement_match valid ndc (ir : nat * row) :
    ir ∈ reimbursement_match valid ndc ↔
    ir ∈ valid ∧ str_value (cell ir.2 "Dispensed Item NDC") = ndc.
  Proof. unfold reimbursement_match. rewrite list_elem_of_filter. tauto. Qed.

End Steps.

(** ** Lemmas on a whole run *)

Section Run.

Variable float_repr : Q → string.
Variable K : SortKind.

Local Abbreviation run := (process_files_with_adjusted_filtering float_repr K).
Local Abbreviation std := (standardize float_repr).

Lemma numeric_amounts_Forall df :
    numeric_amounts df = true ↔
    Forall (λ r : row, is_str (cell r "Primary Remit Amount") = false) (rows df).
  Proof.
    unfold numeric_amounts. induction (rows df) as [|r l IH]; simpl.
    - split; [constructor | reflexivity].
    - rewrite andb_true_iff, IH, Forall_cons, negb_true_iff. tauto.
  Qed.

Lemma rows_set_column c f df :
    rows (set_column c f df) = (λ r : row, <[c := f (cell r c)]> r) <$> rows df.
  Proof. reflexivity. Qed.

Lemma columns_set_column c f df :
    c ∈ columns df → columns (set_column c f df) = columns df.
  Proof. intros H. unfold set_column; simpl. now rewrite bool_decide_eq_true_2. Qed.

Lemma numeric_amounts_std fr :
    numeric_amounts (reimbursement_data (std fr)) = numeric_amounts (reimbursement_data fr).
  Proof.
    unfold numeric_amounts. cbn [std reimbursement_data]. rewrite rows_set_column.
    induction (rows (reimbursement_data fr)) as [|r l IH]; [reflexivity|].
    rewrite fmap_cons. cbn [forallb].
    rewrite cell_insert_ne by discriminate. now rewrite IH.
  Qed.

Lemma has_required_columns_std fr :
    has_required_columns fr = true → has_required_columns (std fr) = true.
  Proof.
    unfold has_required_columns. rewrite !andb_true_iff, !bool_decide_eq_true.
    intros [[[[[H1 H2] H3] H4] H5] H6]. simpl.
    rewrite !bool_decide_eq_true_2 by assumption. tauto.
  Qed.

Lemma enumerate_numeric (l : list row) :
    Forall (λ r : row, is_str (cell r "Primary Remit Amount") = false) l →
    Forall (λ ir : nat * row, is_str (cell ir.2 "Primary Remit Amount") = false)
           (enumerate l).
  Proof.
    rewrite !Forall_forall. intros H [i r] Hir.
    apply elem_of_enumerate in Hir. simpl. apply H.
    now apply list_elem_of_lookup_2 with i.
  Qed.

Lemma enumerate_str (l : list row) :
    Exists (λ r : row, is_str (cell r "Primary Remit Amount") = true) l →
    Exists (λ ir : nat * row, is_str (cell ir.2 "Primary Remit Amount") = true)
           (enumerate l).
  Proof.
    rewrite !Exists_exists. intros (r & Hr & Hs).
    apply list_elem_of_lookup in Hr as [i Hi].
    exists (i, r). split; [now apply elem_of_enumerate | exact Hs].
  Qed.

Lemma output_row_total cols valid lookup (r : row) :
    ∃ o, output_row K cols valid lookup r = Some o.
  Proof.
    unfold output_row.
    destruct (best_match_total K valid (str_value (cell r "NDC"))) as [sel ->].
    destruct sel as [best|]; simpl; eauto.
  Qed.

Lemma iterrows_total cols valid lookup (l : list row) :
    ∃ out, mapM (output_row K cols valid lookup) l = Some out.
  Proof.
    apply (mapM_is_Some_2 (output_row K cols valid lookup) l).
    apply Forall_forall. intros r _.
    destruct (output_row_total cols valid lookup r) as [o Ho].
    exists o. exact Ho.
  Qed.

  (** The three ways a run ends. *)

Lemma run_stopped fr o :
    validate fr required_columns = Some o → run fr = (o, fr).
  Proof. intros H. unfold process_files_with_adjusted_filtering. now rewrite H. Qed.

Lemma run_type_error fr :
    has_required_columns fr = true →
    numeric_amounts (reimbursement_data fr) = false →
    run fr = (Raised TypeError, std fr).
  Proof.
    intros Hc Hn. unfold process_files_with_adjusted_filtering.
    rewrite (validate_pass fr Hc).
    rewrite positive_remit_str; [reflexivity|].
    apply enumerate_str. rewrite <- numeric_amounts_std in Hn.
    apply not_true_iff_false in Hn. rewrite numeric_amounts_Forall in Hn.
    apply not_Forall_Exists in Hn; [|intros r; apply _].
    eapply Exists_impl; [exact Hn|]. simpl. intros r Hr.
    now destruct (is_str _).
  Qed.

Lemma run_returned fr :
    valid_inputs fr = true →
    ∃ valid output_rows,
      positive_remit (enumerate (rows (reimbursement_data (std fr)))) = Some valid ∧
      mapM (output_row K (columns (reimbursement_data (std fr))) valid
              (to_dict (rows (nadac_data (std fr)))))
           (rows (top_100_data (std fr))) = Some output_rows ∧
      run fr = (Returned output_rows, std fr).
  Proof.
    unfold valid_inputs. rewrite andb_true_iff. intros [Hc Hn].
    destruct (positive_remit_total (enumerate (rows (reimbursement_data (std fr)))))
      as [valid Hv].
    { apply enumerate_numeric. apply numeric_amounts_Forall.
      now rewrite numeric_amounts_std. }
    destruct (iterrows_total (columns (reimbursement_data (std fr))) valid
                (to_dict (rows (nadac_data (std fr))))
                (rows (top_100_data (std fr)))) as [out Hout].
    exists valid, out. split; [exact Hv|]. split; [exact Hout|].
    unfold process_files_with_adjusted_filtering.
    rewrite (validate_pass fr Hc). rewrite Hv. now rewrite Hout.
  Qed.

Lemma run_returned_inv fr out fr' :
    run fr = (Returned out, fr') → valid_inputs fr = true ∧ fr' = std fr.
  Proof.
    intros H. unfold valid_inputs.
    destruct (validate_cases fr) as [[Hc Hv]|[Hc [o Hv]]].
    - destruct (numeric_amounts (reimbursement_data fr)) eqn:Hn.
      + destruct (run_returned fr) as (valid & out' & _ & _ & Hr).
        { unfold valid_inputs. now rewrite Hc, Hn. }
        rewrite Hr in H. inversion H; subst. now rewrite Hc.
      + rewrite (run_type_error fr Hc Hn) in H. discriminate.
    - rewrite (run_stopped fr o Hv) in H.
      destruct (validate_stop fr Hc) as (f & cs & c & df & _ & _ & _ & _ & Hs).
      rewrite Hs in Hv. inversion Hv; subst. discriminate.
  Qed.

End Run.

(** ** Standardizing twice *)

Section Standardize.

Variable float_repr : Q → string.

Local Abbreviation std := (standardize float_repr).

Lemma standardize_ndc_idem v :
    standardize_ndc float_repr (standardize_ndc float_repr v) = standardize_ndc float_repr v.
  Proof. unfold standardize_ndc; simpl. now rewrite PyStr.zfill_idem. Qed.

Lemma standardize_dispensed_ndc_idem v :
    standardize_dispensed_ndc float_repr (standardize_dispensed_ndc float_repr v)
    = standardize_dispensed_ndc float_repr v.
  Proof.
    unfold standardize_dispensed_ndc; simpl.
    rewrite PyStr.before_dot_no_dot.
    - now rewrite PyStr.zfill_idem.
    - rewrite PyStr.has_dot_zfill. apply PyStr.has_dot_before_dot.
  Qed.

Lemma set_column_idem c (f : value → value) df :
    (∀ v, f (f v) = f v) → set_column c f (set_column c f df) = set_column c f df.
  Proof.
    intros Hf. unfold set_column; cbn [columns rows]. f_equal.
    - destruct (bool_decide (c ∈ columns df)) eqn:E.
      + now rewrite E.
      + rewrite bool_decide_eq_true_2; [reflexivity|].
        apply elem_of_app. right. now left.
    - rewrite <- list_fmap_compose.
      apply list_fmap_ext. intros _ r _. simpl.
      rewrite cell_insert_eq, Hf. apply insert_insert_eq.
  Qed.

Lemma standardize_idem fr : std (std fr) = std fr.
  Proof.
    unfold standardize; cbn [top_100_data nadac_data reimbursement_data]. f_equal.
    - apply set_column_idem, standardize_ndc_idem.
    - apply set_column_idem, standardize_ndc_idem.
    - apply set_column_idem, standardize_dispensed_ndc_idem.
  Qed.

End Standardize.

(** ** Matches with one greatest amount *)

Section StrictMax.

Variable K : SortKind.

  (** When one matched row has an amount above all the others, every sorting
      algorithm puts it first. *)
Lemma best_match_strict_max valid ndc pre best post :
    reimbursement_match valid ndc = pre ++ best :: post →
    forallb (λ o : nat * row, negb (Qle_bool (amount_key best.2) (amount_key o.2)))
            (pre ++ post) = true →
    best_match K valid ndc = Some (Some best).
  Proof.
    intros Hm Hlt.
    destruct (best_match_some K valid ndc) as (h & Hh & Hin & Hmax).
    { rewrite Hm. now destruct pre. }
    rewrite Hh. do 2 f_equal.
    assert (Hb : best ∈ reimbursement_match valid ndc).
    { rewrite Hm. apply elem_of_app. right. now left. }
    apply Hmax in Hb.
    rewrite Hm in Hin. apply elem_of_app in Hin as [Hin|Hin].
    - exfalso. rewrite forallb_forall in Hlt.
      assert (Hi : In h (pre ++ post)) by (apply in_or_app; left; now apply list_elem_of_In).
      apply Hlt in Hi. apply negb_true_iff in Hi.
      apply Qle_bool_iff in Hb. congruence.
    - apply elem_of_cons in Hin as [->|Hin]; [reflexivity|].
      exfalso. rewrite forallb_forall in Hlt.
      assert (Hi : In h (pre ++ post)) by (apply in_or_app; right; now apply list_elem_of_In).
      apply Hlt in Hi. apply negb_true_iff in Hi.
      apply Qle_bool_iff in Hb. congruence.
  Qed.

Lemma output_row_matched cols valid lookup (r : row) best :
    best_match K valid (str_value (cell r "NDC")) = Some (Some best) →
    output_row K cols valid lookup r =
      Some {| Drug_Name := cell r "Drug";
              NDC := cell r "NDC";
              NADAC := default VNull (lookup !! str_value (cell r "NDC"));
              Bin := series_get cols best.2 "Primary Third Party Bin" Not_Available;
              PCN := series_get cols best.2 "Primary Third Party PCN" Not_Available;
              Network := series_get cols best.2 "Primary Network Reimbursement" Not_Available;
              Reimbursement := series_get cols best.2 "Primary Remit Amount" (VNum 0);
              Price := VNull |}.
  Proof. intros H. unfold output_row. now rewrite H. Qed.

Lemma output_row_unmatched cols valid lookup (r : row) :
    best_match K valid (str_value (cell r "NDC")) = Some None →
    output_row K cols valid lookup r =
      Some {| Drug_Name := cell r "Drug";
              NDC := cell r "NDC";
              NADAC := default VNull (lookup !! str_value (cell r "NDC"));
              Bin := Not_Available;
              PCN := Not_Available;
              Network := Not_Available;
              Reimbursement := VNum 0;
              Price := VNull |}.
  Proof. intros H. unfold output_row. now rewrite H. Qed.

Lemma run_eq float_repr fr valid output_rows :
    validate fr required_columns = None →
    positive_remit (enumerate (rows (reimbursement_data (standardize float_repr fr))))
      = Some valid →
    mapM (output_row K (columns (reimbursement_data (standardize float_repr fr))) valid
            (to_dict (rows (nadac_data (standardize float_repr fr)))))
         (rows (top_100_data (standardize float_repr fr))) = Some output_rows →
    process_files_with_adjusted_filtering float_repr K fr
      = (Returned output_rows, standardize float_repr fr).
  Proof.
    intros Hv Hp Hm. unfold process_files_with_adjusted_filtering.
    now rewrite Hv, Hp, Hm.
  Qed.

End StrictMax.

(** ** The rows of the output *)

Section OutputRows.

Variable float_repr : Q → string.
Variable K : SortKind.

Lemma output_row_inv cols valid lookup (r : row) o :
    output_row K cols valid lookup r = Some o →
    ∃ sel, best_match K valid (str_value (cell r "NDC")) = Some sel ∧
      Drug_Name o = cell r "Drug" ∧ NDC o = cell r "NDC" ∧
      NADAC o = default VNull (lookup !! str_value (cell r "NDC")) ∧
      Price o = VNull ∧
      match sel with
      | Some best =>
          Bin o = series_get cols best.2 "Primary Third Party Bin" Not_Available ∧
          PCN o = series_get cols best.2 "Primary Third Party PCN" Not_Available ∧
          Network o = series_get cols best.2 "Primary Network Reimbursement" Not_Available ∧
          Reimbursement o = series_get cols best.2 "Primary Remit Amount" (VNum 0)
      | None =>
          Bin o = Not_Available ∧ PCN o = Not_Available ∧
          Network o = Not_Available ∧ Reimbursement o = VNum 0
      end.
  Proof.
    unfold output_row. intros H.
    destruct (best_match K valid _) as [sel|] eqn:E; [|discriminate].
    exists sel. split; [reflexivity|].
    destruct sel as [best|]; inversion H; subst; simpl; tauto.
  Qed.

Lemma top_rows_standardize fr :
    rows (top_100_data (standardize float_repr fr)) =
    (λ r : row, <["NDC" := standardize_ndc float_repr (cell r "NDC")]> r)
      <$> rows (top_100_data fr).
  Proof. reflexivity. Qed.

Lemma ledger_rows_standardize fr :
    rows (reimbursement_data (standardize float_repr fr)) =
    (λ r : row, <["Dispensed Item NDC" :=
                    standardize_dispensed_ndc float_repr (cell r "Dispensed Item NDC")]> r)
      <$> rows (reimbursement_data fr).
  Proof. reflexivity. Qed.

Lemma nadac_rows_standardize fr :
    rows (nadac_data (standardize float_repr fr)) =
    (λ r : row, <["NDC" := standardize_ndc float_repr (cell r "NDC")]> r)
      <$> rows (nadac_data fr).
  Proof. reflexivity. Qed.

End OutputRows.

(** ** Inputs used in the examples below *)

Module MissingDrug.

  (** A Top 100 table without its [Drug] column. *)
Definition products : DataFrame :=
    {| columns := ["NDC"];
       rows := [ {[ "NDC" := VStr "123" ]} ] |}.

Definition inputs : Frames :=
    {| top_100_data := products;
       nadac_data := Example.prices;
       reimbursement_data := Example.ledger |}.

End MissingDrug.

Module NullNetwork.

  (** One ledger row matches the product; its network cell is missing, its
      bin and PCN cells are not. *)
Definition ledger : DataFrame :=
    {| columns := ["Dispensed Item NDC"; "Primary Remit Amount";
                   "Primary Third Party Bin"; "Primary Third Party PCN";
                   "Primary Network Reimbursement"];
       rows := [ {[ "Dispensed Item NDC" := VStr "123";
                    "Primary Remit Amount" := VNum (25 # 2);
                    "Primary Third Party Bin" := VStr "610014";
                    "Primary Third Party PCN" := VStr "ADV";
                    "Primary Network Reimbursement" := VNull ]};
                 {[ "Dispensed Item NDC" := VStr "456";
                    "Primary Remit Amount" := VNum 3;
                    "Primary Third Party Bin" := VStr "004336";
                    "Primary Third Party PCN" := VStr "MCAIDADV";
                    "Primary Network Reimbursement" := VStr "NET2" ]} ] |}.

Definition inputs : Frames :=
    {| top_100_data := Example.products;
       nadac_data := Example.prices;
       reimbursement_data := ledger |}.

End NullNetwork.

Module Tie.

  (** Two ledger rows for the same identifier and the same positive amount. *)
Definition ledger : DataFrame :=
    {| columns := ["Dispensed Item NDC"; "Primary Remit Amount";
                   "Primary Network Reimbursement"];
       rows := [ {[ "Dispensed Item NDC" := VStr "123";
                    "Primary Remit Amount" := VNum 10;
                    "Primary Network Reimbursement" := VStr "FIRST" ]};
                 {[ "Dispensed Item NDC" := VStr "123";
                    "Primary Remit Amount" := VNum 10;
                    "Primary Network Reimbursement" := VStr "SECOND" ]} ] |}.

Definition inputs : Frames :=
    {| top_100_data := Example.products;
       nadac_data := Example.prices;
       reimbursement_data := ledger |}.

  (** The filtered ledger of a run on [inputs]. *)
Definition valid : list (nat * row) :=
    default [] (positive_remit
                  (enumerate (rows (reimbursement_data
                                      (standardize Example.float_repr inputs))))).

End Tie.

Module LateTie.

  (** Seventeen ledger rows for the product; the rows of index 15 and 16
      share the greatest amount. *)
Definition ledger_row (amount : Q) (network : string) : row :=
  {[ "Dispensed Item NDC" := VStr "123";
     "Primary Remit Amount" := VNum amount;
     "Primary Network Reimbursement" := VStr network ]}.

Definition ledger : DataFrame :=
  {| columns := ["Dispensed Item NDC"; "Primary Remit Amount";
                 "Primary Network Reimbursement"];
     rows := [ ledger_row 1 "ROW0"; ledger_row 2 "ROW1"; ledger_row 3 "ROW2";
               ledger_row 4 "ROW3"; ledger_row 5 "ROW4"; ledger_row 6 "ROW5";
               ledger_row 7 "ROW6"; ledger_row 8 "ROW7"; ledger_row 9 "ROW8";
               ledger_row 10 "ROW9"; ledger_row 11 "ROW10"; ledger_row 12 "ROW11";
               ledger_row 13 "ROW12"; ledger_row 14 "ROW13"; ledger_row 15 "ROW14";
               ledger_row 100 "ROW15"; ledger_row 100 "ROW16" ] |}.

Definition inputs : Frames :=
  {| top_100_data := Example.products;
     nadac_data := Example.prices;
     reimbursement_data := ledger |}.

  (** The filtered ledger of a run on [inputs]. *)
Definition valid : list (nat * row) :=
  default [] (positive_remit
                (enumerate (rows (reimbursement_data
                                    (standardize Example.float_repr inputs))))).

End LateTie.

Module ZeroAmount.

  (** Three ledger rows for the product: an amount of 0, a missing amount,
      and a positive amount on a row without network, bin or PCN. *)
Definition zero_row : row :=
    {[ "Dispensed Item NDC" := VStr "123";
       "Primary Remit Amount" := VNum 0;
       "Primary Network Reimbursement" := VStr "NET0" ]}.

Definition null_row : row :=
    {[ "Dispensed Item NDC" := VStr "123";
       "Primary Remit Amount" := VNull;
       "Primary Network Reimbursement" := VStr "NET1" ]}.

Definition paid_row : row :=
    {[ "Dispensed Item NDC" := VStr "123";
       "Primary Remit Amount" := VInt 4;
       "Primary Network Reimbursement" := VNull ]}.

Definition ledger : DataFrame :=
    {| columns := ["Dispensed Item NDC"; "Primary Remit Amount";
                   "Primary Network Reimbursement"];
       rows := [zero_row; null_row; paid_row] |}.

Definition inputs : Frames :=
    {| top_100_data := Example.products;
       nadac_data := Example.prices;
       reimbursement_data := ledger |}.

Definition output : list OutputRecord :=
    [ {| Drug_Name := VStr "Aspirin";
         NDC := VStr "00000000123";
         NADAC := VNum (45 # 100);
         Bin := Not_Available;
         PCN := Not_Available;
         Network := VNull;
         Reimbursement := VInt 4;
         Price := VNull |} ].

End ZeroAmount.

(** * The claims *)

(** ** C7: identifier normalization *)

(** C7. Identifier normalization is idempotent for the normalizer of the
    product and price tables and for the normalizer of the reimbursement
    ledger (which first drops what follows the first dot); an identifier
    string of 11 characters is returned as it is (for the ledger's
    normalizer, one without a dot, as every identifier it produces is); a
    value longer than 11 characters is not truncated. *)
Theorem C7_normalization_idempotent (float_repr : Q → string) :
  (∀ v, standardize_ndc float_repr (standardize_ndc float_repr v)
        = standardize_ndc float_repr v) ∧
  (∀ v, standardize_dispensed_ndc float_repr (standardize_dispensed_ndc float_repr v)
        = standardize_dispensed_ndc float_repr v) ∧
  (∀ s, String.length s = 11 → standardize_ndc float_repr (VStr s) = VStr s) ∧
  (∀ s, String.length s = 11 → PyStr.has_dot s = false →
        standardize_dispensed_ndc float_repr (VStr s) = VStr s) ∧
  (∀ s, 11 < String.length s → standardize_ndc float_repr (VStr s) = VStr s) ∧
  (∀ s, 11 < String.length (PyStr.before_dot s) →
        standardize_dispensed_ndc float_repr (VStr s) = VStr (PyStr.before_dot s)).
Proof.
  repeat split.
  - apply standardize_ndc_idem.
  - apply standardize_dispensed_ndc_idem.
  - intros s Hs. unfold standardize_ndc; simpl. rewrite PyStr.zfill_long; [reflexivity | lia].
  - intros s Hs Hd. unfold standardize_dispensed_ndc; simpl.
    rewrite PyStr.before_dot_no_dot by exact Hd.
    rewrite PyStr.zfill_long; [reflexivity | lia].
  - intros s Hs. unfold standardize_ndc; simpl. rewrite PyStr.zfill_long; [reflexivity | lia].
  - intros s Hs. unfold standardize_dispensed_ndc; simpl.
    rewrite PyStr.zfill_long; [reflexivity | lia].
Qed.

Lemma C7_witness :
  standardize_ndc Example.float_repr (VStr "00000000123") = VStr "00000000123" ∧
  standardize_dispensed_ndc Example.float_repr (VStr "00000000123") = VStr "00000000123" ∧
  standardize_ndc Example.float_repr (VStr "123456789012") = VStr "123456789012" ∧
  standardize_dispensed_ndc Example.float_repr (VStr "123456789012.0")
    = VStr "123456789012".
Proof.
  destruct (C7_normalization_idempotent Example.float_repr)
    as (_ & _ & H11 & Hd11 & Hlong & Hdlong).
  split; [apply H11; reflexivity|].
  split; [apply Hd11; reflexivity|].
  split; [apply Hlong; vm_compute; lia|].
  apply (Hdlong "123456789012.0"). vm_compute; lia.
Defined.

(** ** C6: schema validation *)

(** C6. When one of the six fixed required columns is not in its table, the
    run ends in [st.error] and [st.stop] with a message that names the table
    and a missing column of it; no output row is produced, and the inputs
    are as they were handed in. *)
Theorem C6_schema_error_halts (float_repr : Q → string) (K : SortKind) (fr : Frames) :
  has_required_columns fr = false →
  ∃ file cols column df,
    (file, cols) ∈ required_columns ∧ column ∈ cols ∧
    eval_name (data_name file) fr = Some df ∧ (column ∉ columns df) ∧
    error_message file column = file +:+ " file must contain '" +:+ column +:+ "' column." ∧
    process_files_with_adjusted_filtering float_repr K fr
      = (Stopped (error_message file column), fr).
Proof.
  intros H. destruct (validate_stop fr H) as (file & cols & column & df & H1 & H2 & H3 & H4 & H5).
  exists file, cols, column, df. repeat split; try assumption.
  now apply run_stopped.
Qed.

Lemma C6_witness :
  has_required_columns MissingDrug.inputs = false ∧
  ∃ file cols column df,
    (file, cols) ∈ required_columns ∧ column ∈ cols ∧
    eval_name (data_name file) MissingDrug.inputs = Some df ∧ (column ∉ columns df) ∧
    error_message file column = file +:+ " file must contain '" +:+ column +:+ "' column." ∧
    process_files_with_adjusted_filtering Example.float_repr stable_kind MissingDrug.inputs
      = (Stopped (error_message file column), MissingDrug.inputs).
Proof.
  split; [vm_compute; reflexivity|].
  apply (C6_schema_error_halts Example.float_repr stable_kind MissingDrug.inputs).
  vm_compute; reflexivity.
Defined.

(** The spec's case: a Top 100 table without its [Drug] column. *)
Example missing_drug_column_stops :
  (process_files_with_adjusted_filtering Example.float_repr stable_kind MissingDrug.inputs).1
    = Stopped "Top 100 file must contain 'Drug' column.".
Proof. vm_compute. reflexivity. Qed.

(** ** C4: one output row per product row *)

(** C4. On valid inputs (the required columns are there and the remit
    amounts are numbers or missing) the run returns an output table with
    exactly one row per row of the Top 100 table, in the same order: the
    i-th output row carries the drug name of the i-th product row and its
    standardized identifier, whatever the outcome of the match. *)
Theorem C4_one_row_per_product (float_repr : Q → string) (K : SortKind) (fr : Frames) :
  valid_inputs fr = true →
  ∃ output_rows,
    process_files_with_adjusted_filtering float_repr K fr
      = (Returned output_rows, standardize float_repr fr) ∧
    length output_rows = length (rows (top_100_data fr)) ∧
    Forall2 (λ (r : row) (o : OutputRecord),
               Drug_Name o = cell r "Drug" ∧
               NDC o = standardize_ndc float_repr (cell r "NDC"))
            (rows (top_100_data fr)) output_rows.
Proof.
  intros Hv. destruct (run_returned float_repr K fr Hv) as (valid & out & Hp & Hm & Hr).
  exists out. split; [exact Hr|].
  apply mapM_Some in Hm. rewrite top_rows_standardize in Hm.
  apply Forall2_fmap_l in Hm.
  assert (HF : Forall2 (λ (r : row) (o : OutputRecord),
               Drug_Name o = cell r "Drug" ∧
               NDC o = standardize_ndc float_repr (cell r "NDC"))
            (rows (top_100_data fr)) out).
  { eapply Forall2_impl; [exact Hm|]. simpl. intros r o Ho.
    apply output_row_inv in Ho as (sel & _ & Hd & Hn & _).
    rewrite Hd, Hn. rewrite cell_insert_ne by discriminate.
    now rewrite cell_insert_eq. }
  split; [|exact HF]. symmetry. now apply Forall2_length in HF.
Qed.

Lemma C4_witness :
  ∃ output_rows,
    process_files_with_adjusted_filtering Example.float_repr stable_kind Example.inputs
      = (Returned output_rows, standardize Example.float_repr Example.inputs) ∧
    length output_rows = 1.
Proof.
  destruct (C4_one_row_per_product Example.float_repr stable_kind Example.inputs)
    as (out & Hr & Hl & _).
  - vm_compute. reflexivity.
  - exists out. split; [exact Hr | exact Hl].
Defined.

(** ** C5: the filter on the remit amount *)

(** C5. In a run that returns, a ledger record whose remit amount is
    missing or at most 0 is not in the filtered ledger, is in no match set
    and is never the record selected for a product; a record with an amount
    above 0 is in the filtered ledger whatever its network, bin and PCN
    cells hold. The output rows are built from that filtered ledger only. *)
Theorem C5_invalid_amounts_never_match (float_repr : Q → string) (K : SortKind)
    (fr fr' : Frames) (output_rows : list OutputRecord) :
  process_files_with_adjusted_filtering float_repr K fr = (Returned output_rows, fr') →
  ∃ valid,
    positive_remit (enumerate (rows (reimbursement_data fr'))) = Some valid ∧
    mapM (output_row K (columns (reimbursement_data fr')) valid
            (to_dict (rows (nadac_data fr'))))
         (rows (top_100_data fr')) = Some output_rows ∧
    (∀ i (r : row),
       rows (reimbursement_data fr) !! i = Some r →
       (cell r "Primary Remit Amount" = VNull ∨
        ∃ q, number (cell r "Primary Remit Amount") = Some q ∧ (q <= 0)%Q) →
       ∀ r' : row,
         ((i, r') ∉ valid) ∧
         ∀ ndc, ((i, r') ∉ reimbursement_match valid ndc) ∧
                best_match K valid ndc ≠ Some (Some (i, r'))) ∧
    (∀ i (r : row),
       rows (reimbursement_data fr) !! i = Some r →
       (∃ q, number (cell r "Primary Remit Amount") = Some q ∧ (0 < q)%Q) →
       (i, <["Dispensed Item NDC" :=
               standardize_dispensed_ndc float_repr (cell r "Dispensed Item NDC")]> r)
         ∈ valid).
Proof.
  intros Hrun.
  destruct (run_returned_inv float_repr K fr output_rows fr' Hrun) as [Hvalid ->].
  destruct (run_returned float_repr K fr Hvalid) as (valid & out & Hp & Hm & Hr).
  rewrite Hr in Hrun. inversion Hrun; subst out. clear Hrun.
  exists valid. split; [exact Hp|]. split; [exact Hm|].
  pose proof (positive_remit_elem _ _ Hp) as Hel.
  assert (Hnot : ∀ i (r : row),
            rows (reimbursement_data fr) !! i = Some r →
            (cell r "Primary Remit Amount" = VNull ∨
             ∃ q, number (cell r "Primary Remit Amount") = Some q ∧ (q <= 0)%Q) →
            ∀ r' : row, (i, r') ∉ valid).
  { intros i r Hi Hbad r' Hin.
    apply Hel in Hin as [Hin (q & Hq & Hpos)]. simpl in Hq.
    apply elem_of_enumerate in Hin. rewrite ledger_rows_standardize in Hin.
    rewrite list_lookup_fmap, Hi in Hin. simpl in Hin. inversion Hin; subst r'.
    rewrite cell_insert_ne in Hq by discriminate.
    destruct Hbad as [Hnull | (q' & Hq' & Hle)].
    - rewrite Hnull in Hq. discriminate.
    - rewrite Hq' in Hq. inversion Hq; subst q'.
      now apply (Qlt_not_le _ _ Hpos). }
  split.
  - intros i r Hi Hbad r'. split; [now apply (Hnot i r)|].
    intros ndc. split.
    + rewrite elem_of_reimbursement_match. intros [Hin _]. now apply (Hnot i r Hi Hbad r').
    + intros Hb. apply best_match_inv in Hb as [Hin _].
      apply elem_of_reimbursement_match in Hin as [Hin _].
      now apply (Hnot i r Hi Hbad r').
  - intros i r Hi (q & Hq & Hpos). apply Hel. split.
    + apply elem_of_enumerate. rewrite ledger_rows_standardize.
      now rewrite list_lookup_fmap, Hi.
    + exists q. simpl. rewrite cell_insert_ne by discriminate. now split.
Qed.

Lemma C5_witness :
  ∃ valid,
    positive_remit
      (enumerate (rows (reimbursement_data
                          (standardize Example.float_repr ZeroAmount.inputs))))
      = Some valid ∧
    (∀ r' : row, (0, r') ∉ valid) ∧
    (∀ r' : row, (1, r') ∉ valid) ∧
    (2, <["Dispensed Item NDC" :=
            standardize_dispensed_ndc Example.float_repr
              (cell ZeroAmount.paid_row "Dispensed Item NDC")]> ZeroAmount.paid_row)
      ∈ valid.
Proof.
  destruct (C5_invalid_amounts_never_match Example.float_repr stable_kind
              ZeroAmount.inputs (standardize Example.float_repr ZeroAmount.inputs)
              ZeroAmount.output)
    as (valid & Hp & _ & Hbad & Hgood).
  - vm_compute. reflexivity.
  - exists valid. split; [exact Hp|]. split; [|split].
    + intros r'. apply (Hbad 0 ZeroAmount.zero_row); [reflexivity|].
      right. exists 0%Q. split; [vm_compute; reflexivity | discriminate].
    + intros r'. apply (Hbad 1 ZeroAmount.null_row); [reflexivity|].
      left. vm_compute. reflexivity.
    + apply (Hgood 2 ZeroAmount.paid_row); [reflexivity|].
      exists (inject_Z 4). split; [vm_compute; reflexivity | reflexivity].
Defined.

(** ** C10: the sign of the Reimbursement field *)

(** C10. In every row of a returned output table the Reimbursement field
    is a number; it is above 0 exactly when some record of the filtered
    ledger carries the row's standardized identifier, it is 0.0 when none
    does, and it is never negative. *)
Theorem C10_reimbursement_sign (float_repr : Q → string) (K : SortKind)
    (fr fr' : Frames) (output_rows : list OutputRecord) :
  process_files_with_adjusted_filtering float_repr K fr = (Returned output_rows, fr') →
  ∃ valid,
    positive_remit (enumerate (rows (reimbursement_data fr'))) = Some valid ∧
    Forall (λ o : OutputRecord,
              ∃ q, number (Reimbursement o) = Some q ∧
                   ((0 < q)%Q ↔
                    ∃ ir : nat * row,
                      ir ∈ valid ∧
                      str_value (cell ir.2 "Dispensed Item NDC") = str_value (NDC o)) ∧
                   ((¬ ∃ ir : nat * row,
                      ir ∈ valid ∧
                      str_value (cell ir.2 "Dispensed Item NDC") = str_value (NDC o)) →
                    Reimbursement o = VNum 0) ∧
                   (0 <= q)%Q)
           output_rows.
Proof.
  intros Hrun.
  destruct (run_returned_inv float_repr K fr output_rows fr' Hrun) as [Hvalid ->].
  destruct (run_returned float_repr K fr Hvalid) as (valid & out & Hp & Hm & Hr).
  rewrite Hr in Hrun. inversion Hrun; subst out. clear Hrun.
  exists valid. split; [exact Hp|].
  pose proof (positive_remit_elem _ _ Hp) as Hel.
  assert (Hcol : "Primary Remit Amount"
                   ∈ columns (reimbursement_data (standardize float_repr fr))).
  { apply andb_true_iff in Hvalid as [Hc _].
    apply (has_required_columns_std float_repr) in Hc.
    unfold has_required_columns in Hc. rewrite !andb_true_iff in Hc.
    destruct Hc as [_ Hc]. now apply bool_decide_eq_true in Hc. }
  apply mapM_Some in Hm. clear Hr.
  induction Hm as [|r o rs os Ho _ IH]; [constructor|].
  constructor; [|exact IH].
  apply output_row_inv in Ho as (sel & Hsel & _ & Hn & _ & _ & Hfields).
  rewrite Hn. apply best_match_inv in Hsel.
  destruct sel as [best|].
  - destruct Hsel as [Hin _]. destruct Hfields as (_ & _ & _ & Hre).
    unfold series_get in Hre. rewrite bool_decide_eq_true_2 in Hre by exact Hcol.
    apply elem_of_reimbursement_match in Hin as [Hin Hndc].
    destruct (proj1 (Hel best) Hin) as [_ (q & Hq & Hpos)].
    exists q. rewrite Hre. split; [exact Hq|]. split; [|split].
    + split; [|intros _; exact Hpos]. intros _. exists best. now split.
    + intros Hno. exfalso. apply Hno. exists best. now split.
    + now apply Qlt_le_weak.
  - destruct Hfields as (_ & _ & _ & Hre). exists 0%Q. rewrite Hre.
    split; [reflexivity|]. split; [|split].
    + split; [intros Hlt; now apply Qlt_irrefl in Hlt|].
      intros (ir & Hin & Hndc). exfalso.
      assert (Hm' : ir ∈ reimbursement_match valid (str_value (cell r "NDC")))
        by (apply elem_of_reimbursement_match; now split).
      rewrite Hsel in Hm'. now apply elem_of_nil in Hm'.
    + reflexivity.
    + apply Qle_refl.
Qed.

Lemma C10_witness :
  ∃ valid,
    positive_remit
      (enumerate (rows (reimbursement_data
                          (standardize Example.float_repr ZeroAmount.inputs))))
      = Some valid ∧
    Forall (λ o : OutputRecord,
              ∃ q, number (Reimbursement o) = Some q ∧
                   ((0 < q)%Q ↔
                    ∃ ir : nat * row,
                      ir ∈ valid ∧
                      str_value (cell ir.2 "Dispensed Item NDC") = str_value (NDC o)) ∧
                   ((¬ ∃ ir : nat * row,
                      ir ∈ valid ∧
                      str_value (cell ir.2 "Dispensed Item NDC") = str_value (NDC o)) →
                    Reimbursement o = VNum 0) ∧
                   (0 <= q)%Q)
           ZeroAmount.output.
Proof.
  apply (C10_reimbursement_sign Example.float_repr stable_kind ZeroAmount.inputs
           (standardize Example.float_repr ZeroAmount.inputs) ZeroAmount.output).
  vm_compute. reflexivity.
Defined.

(** ** C3: ties on the greatest amount *)








(** The indexer pandas computes for the seventeen amounts: row 16 comes
    first, row 15 second. *)
Example late_tie_indexer :
  nargsort_desc ((λ ir : nat * row, amount_key ir.2) <$> LateTie.valid)
  = [16; 15; 14; 13; 12; 11; 10; 9; 8; 7; 6; 5; 4; 3; 2; 1; 0].
Proof. vm_compute. reflexivity. Qed.

(** The network of the output row tells which record was picked: the second
    of the two tied records of [LateTie.inputs]; on the two rows of
    [Tie.inputs], which are sorted by insertion, the first. *)
Example late_tie_picks_row_16 :
  Network <$> (match (process_files_with_adjusted_filtering Example.float_repr
                        quicksort_kind LateTie.inputs).1 with
               | Returned out => out
               | _ => []
               end) = [VStr "ROW16"].
Proof. vm_compute. reflexivity. Qed.

Example tie_quicksort_kind :
  Network <$> (match (process_files_with_adjusted_filtering Example.float_repr
                        quicksort_kind Tie.inputs).1 with
               | Returned out => out
               | _ => []
               end) = [VStr "FIRST"].
Proof. vm_compute. reflexivity. Qed.

Example tie_stable_kind :
  Network <$> (match (process_files_with_adjusted_filtering Example.float_repr
                        stable_kind Tie.inputs).1 with
               | Returned out => out
               | _ => []
               end) = [VStr "FIRST"].
Proof. vm_compute. reflexivity. Qed.

(** ** A second run on the tables of the first *)

Section Rerun.

Variable float_repr : Q → string.
Variable K : SortKind.

Lemma run_leaves_standardized fr :
    validate fr required_columns = None →
    (process_files_with_adjusted_filtering float_repr K fr).2 = standardize float_repr fr.
  Proof.
    intros Hv. unfold process_files_with_adjusted_filtering. rewrite Hv.
    destruct (positive_remit _); [|reflexivity].
    now destruct (mapM _ _).
  Qed.

Lemma run_standardized fr :
    has_required_columns fr = true →
    process_files_with_adjusted_filtering float_repr K (standardize float_repr fr)
    = process_files_with_adjusted_filtering float_repr K fr.
  Proof.
    intros Hc. unfold process_files_with_adjusted_filtering.
    rewrite (validate_pass _ (has_required_columns_std float_repr fr Hc)).
    rewrite (validate_pass fr Hc).
    now rewrite standardize_idem.
  Qed.

End Rerun.

(** ** C8: the inputs after a run *)

(** The first product row before and after a run on the example. *)
Lemma C8_counterexample :
  (process_files_with_adjusted_filtering Example.float_repr stable_kind Example.inputs).2
  ≠ Example.inputs.
Proof.
  intros H.
  apply (f_equal (λ fr : Frames,
                    (λ r : row, cell r "NDC") <$> rows (top_100_data fr))) in H.
  vm_compute in H. discriminate H.
Qed.

(** C8 (as amended). A run that stops on a schema error leaves the three
    input tables as they were. Any other run rewrites, in the tables it was
    handed, the identifier column of each ([NDC], [NDC],
    [Dispensed Item NDC]) with the standardized identifiers, row by row; it
    changes no other cell, no column label, and neither the number nor the
    order of the rows. *)
Theorem C8_inputs_after_run (float_repr : Q → string) (K : SortKind) (fr : Frames) :
  (has_required_columns fr = false →
   (process_files_with_adjusted_filtering float_repr K fr).2 = fr) ∧
  (has_required_columns fr = true →
   ∃ fr', (process_files_with_adjusted_filtering float_repr K fr).2 = fr' ∧
     columns (top_100_data fr') = columns (top_100_data fr) ∧
     columns (nadac_data fr') = columns (nadac_data fr) ∧
     columns (reimbursement_data fr') = columns (reimbursement_data fr) ∧
     rows (top_100_data fr') =
       (λ r : row, <["NDC" := standardize_ndc float_repr (cell r "NDC")]> r)
         <$> rows (top_100_data fr) ∧
     rows (nadac_data fr') =
       (λ r : row, <["NDC" := standardize_ndc float_repr (cell r "NDC")]> r)
         <$> rows (nadac_data fr) ∧
     rows (reimbursement_data fr') =
       (λ r : row, <["Dispensed Item NDC" :=
                       standardize_dispensed_ndc float_repr (cell r "Dispensed Item NDC")]> r)
         <$> rows (reimbursement_data fr)).
Proof.
  split.
  - intros Hc. destruct (validate_stop fr Hc) as (f & cs & c & df & _ & _ & _ & _ & Hv).
    now rewrite (run_stopped float_repr K fr _ Hv).
  - intros Hc. exists (standardize float_repr fr).
    split; [apply run_leaves_standardized; now apply validate_pass|].
    unfold has_required_columns in Hc. rewrite !andb_true_iff, !bool_decide_eq_true in Hc.
    destruct Hc as [[[[[H1 H2] H3] H4] H5] H6].
    unfold standardize; cbn [top_100_data nadac_data reimbursement_data].
    rewrite !columns_set_column by assumption.
    repeat split; reflexivity.
Qed.

Lemma C8_witness :
  (process_files_with_adjusted_filtering Example.float_repr stable_kind MissingDrug.inputs).2
    = MissingDrug.inputs ∧
  ∃ fr', (process_files_with_adjusted_filtering Example.float_repr stable_kind
            Example.inputs).2 = fr' ∧
         columns (top_100_data fr') = columns (top_100_data Example.inputs) ∧
         rows (top_100_data fr') =
           (λ r : row, <["NDC" := standardize_ndc Example.float_repr (cell r "NDC")]> r)
             <$> rows (top_100_data Example.inputs).
Proof.
  split.
  - apply (C8_inputs_after_run Example.float_repr stable_kind MissingDrug.inputs).
    vm_compute. reflexivity.
  - destruct (proj2 (C8_inputs_after_run Example.float_repr stable_kind Example.inputs))
      as (fr' & Hrun & Hc & _ & _ & Hr & _); [vm_compute; reflexivity|].
    exists fr'. split; [exact Hrun|]. split; [exact Hc | exact Hr].
Defined.

(** ** C1 and C2: a missing cell of the selected record *)

Section KindIrrelevant.

Variable float_repr : Q → string.
Variables K K' : SortKind.

Lemma output_row_ext cols valid lookup (r : row) :
    best_match K valid (str_value (cell r "NDC"))
      = best_match K' valid (str_value (cell r "NDC")) →
    output_row K cols valid lookup r = output_row K' cols valid lookup r.
  Proof. intros H. unfold output_row. now rewrite H. Qed.

Lemma iterrows_ext cols valid lookup (l : list row) :
    Forall (λ r : row, best_match K valid (str_value (cell r "NDC"))
                       = best_match K' valid (str_value (cell r "NDC"))) l →
    mapM (output_row K cols valid lookup) l = mapM (output_row K' cols valid lookup) l.
  Proof.
    induction 1 as [|r l Hr _ IH]; [reflexivity|].
    cbn [mapM]. now rewrite (output_row_ext cols valid lookup r Hr), IH.
  Qed.

  (** Two sorting algorithms that select the same record for every product
      give the same run. *)
Lemma run_kind_ext fr :
    (∀ valid,
       positive_remit (enumerate (rows (reimbursement_data (standardize float_repr fr))))
         = Some valid →
       Forall (λ r : row, best_match K valid (str_value (cell r "NDC"))
                          = best_match K' valid (str_value (cell r "NDC")))
              (rows (top_100_data (standardize float_repr fr)))) →
    process_files_with_adjusted_filtering float_repr K fr
    = process_files_with_adjusted_filtering float_repr K' fr.
  Proof.
    intros H. unfold process_files_with_adjusted_filtering.
    destruct (validate fr required_columns); [reflexivity|].
    destruct (positive_remit _) as [valid|] eqn:Hp; [|reflexivity].
    now rewrite (iterrows_ext _ valid _ _ (H valid eq_refl)).
  Qed.

End KindIrrelevant.

(** Every product's match set is empty or starts with a row whose amount is
    above the amounts of all the other matched rows. *)
Definition strict_head (l : list (nat * row)) : bool :=
  match l with
  | [] => true
  | b :: rest =>
      forallb (λ o : nat * row, negb (Qle_bool (amount_key b.2) (amount_key o.2))) rest
  end.

Definition first_match_wins (float_repr : Q → string) (fr : Frames) : bool :=
  match positive_remit
          (enumerate (rows (reimbursement_data (standardize float_repr fr)))) with
  | None => true
  | Some valid =>
      forallb (λ r : row, strict_head (reimbursement_match valid (str_value (cell r "NDC"))))
              (rows (top_100_data (standardize float_repr fr)))
  end.

Lemma strict_head_kind_irrelevant (K K' : SortKind) valid ndc :
  strict_head (reimbursement_match valid ndc) = true →
  best_match K valid ndc = best_match K' valid ndc.
Proof.
  intros H. destruct (reimbursement_match valid ndc) as [|b rest] eqn:E.
  - now rewrite !best_match_none.
  - simpl in H.
    rewrite (best_match_strict_max K valid ndc [] b rest E H).
    now rewrite (best_match_strict_max K' valid ndc [] b rest E H).
Qed.

(** On such inputs the sorting algorithm does not matter. *)
Lemma run_first_match_wins float_repr (K K' : SortKind) fr :
  first_match_wins float_repr fr = true →
  process_files_with_adjusted_filtering float_repr K fr
  = process_files_with_adjusted_filtering float_repr K' fr.
Proof.
  intros H. apply run_kind_ext. intros valid Hp.
  unfold first_match_wins in H. rewrite Hp in H.
  apply Forall_forall. intros r Hr. apply strict_head_kind_irrelevant.
  rewrite forallb_forall in H. apply H. now apply list_elem_of_In.
Qed.

(** C1. For every sorting algorithm, on [NullNetwork.inputs] the product
    matches one ledger record whose network cell is missing and whose bin
    and PCN cells are set: the output row keeps the bin and the PCN, and its
    Network field is the missing value, not ["Not Available"]. *)
Theorem C1_null_network_is_not_defaulted (float_repr : Q → string) (K : SortKind) :
  (process_files_with_adjusted_filtering float_repr K NullNetwork.inputs).1
  = Returned [ {| Drug_Name := VStr "Aspirin";
                  NDC := VStr "00000000123";
                  NADAC := VNum (45 # 100);
                  Bin := VStr "610014";
                  PCN := VStr "ADV";
                  Network := VNull;
                  Reimbursement := VNum (25 # 2);
                  Price := VNull |} ].
Proof.
  rewrite (run_first_match_wins float_repr K stable_kind NullNetwork.inputs)
    by (vm_compute; reflexivity).
  vm_compute. reflexivity.
Qed.

(** C2. For every sorting algorithm, on the example inputs of the
    specification the engine returns one row, and the row's Bin field is the
    missing value of the winning record's bin cell, not ["Not Available"];
    the other seven fields are those the specification expects. *)
Theorem C2_example_output (float_repr : Q → string) (K : SortKind) :
  (process_files_with_adjusted_filtering float_repr K Example.inputs).1
  = Returned [ {| Drug_Name := VStr "Aspirin";
                  NDC := VStr "00000000123";
                  NADAC := VNum (45 # 100);
                  Bin := VNull;
                  PCN := VStr "Not Available";
                  Network := VStr "NET1";
                  Reimbursement := VNum (25 # 2);
                  Price := VNull |} ].
Proof.
  rewrite (run_first_match_wins float_repr K stable_kind Example.inputs)
    by (vm_compute; reflexivity).
  vm_compute. reflexivity.
Qed.

(** * Further properties of the engine *)

(** ** How a run ends *)

(** The required columns in the order the validation loop visits them, each
    with the table it is looked up in. *)
Definition required_pairs : list (string * (Frames → DataFrame) * string) :=
  [ ("Top 100", top_100_data, "NDC");
    ("Top 100", top_100_data, "Drug");
    ("NADAC", nadac_data, "NDC");
    ("NADAC", nadac_data, "NADAC Per Unit");
    ("Reimbursement", reimbursement_data, "Dispensed Item NDC");
    ("Reimbursement", reimbursement_data, "Primary Remit Amount") ].

Definition is_missing (fr : Frames) (p : string * (Frames → DataFrame) * string) : bool :=
  negb (bool_decide (p.2 ∈ columns (p.1.2 fr))).

Lemma validate_first_missing fr :
  validate fr required_columns =
  (λ p : string * (Frames → DataFrame) * string, Stopped (error_message p.1.1 p.2))
    <$> List.find (is_missing fr) required_pairs.
Proof.
  cbn [validate required_columns check_columns].
  change (eval_name (data_name "Top 100") fr) with (Some (top_100_data fr)).
  change (eval_name (data_name "NADAC") fr) with (Some (nadac_data fr)).
  change (eval_name (data_name "Reimbursement") fr) with (Some (reimbursement_data fr)).
  cbv beta iota.
  unfold required_pairs, is_missing. cbn [List.find fst snd].
  destruct (bool_decide ("NDC" ∈ columns (top_100_data fr))); [|reflexivity].
  destruct (bool_decide ("Drug" ∈ columns (top_100_data fr))); [|reflexivity].
  destruct (bool_decide ("NDC" ∈ columns (nadac_data fr))); [|reflexivity].
  destruct (bool_decide ("NADAC Per Unit" ∈ columns (nadac_data fr))); [|reflexivity].
  destruct (bool_decide ("Dispensed Item NDC" ∈ columns (reimbursement_data fr)));
    [|reflexivity].
  destruct (bool_decide ("Primary Remit Amount" ∈ columns (reimbursement_data fr)));
    reflexivity.
Qed.

Lemma run_returns_iff (float_repr : Q → string) (K : SortKind) (fr : Frames) :
  (∃ out, (process_files_with_adjusted_filtering float_repr K fr).1 = Returned out)
  ↔ valid_inputs fr = true.
Proof.
  split.
  - intros [out Hout].
    destruct (process_files_with_adjusted_filtering float_repr K fr) as [o fr'] eqn:E.
    simpl in Hout. subst o. now apply run_returned_inv in E as [Hv _].
  - intros Hv. destruct (run_returned float_repr K fr Hv) as (valid & out & _ & _ & Hr).
    exists out. now rewrite Hr.
Qed.

(** X1. Whatever the three tables hold, a run ends in one of three ways, each
    decided by the inputs: it stops on a schema error exactly when a required
    column is missing; it raises a [TypeError] exactly when the columns are
    there and some remit amount is a str; it returns a table otherwise. The
    [iloc[0]] of the selector never raises an [IndexError] and the [eval] of
    the validation never a [NameError]. *)
Theorem X1_outcome_cases (float_repr : Q → string) (K : SortKind) (fr : Frames) :
  match (process_files_with_adjusted_filtering float_repr K fr).1 with
  | Returned _ =>
      has_required_columns fr = true ∧ numeric_amounts (reimbursement_data fr) = true
  | Stopped _ => has_required_columns fr = false
  | Raised e =>
      e = TypeError ∧ has_required_columns fr = true ∧
      numeric_amounts (reimbursement_data fr) = false
  end.
Proof.
  destruct (validate_cases fr) as [[Hc Hv]|[Hc [o Hv]]].
  - destruct (numeric_amounts (reimbursement_data fr)) eqn:Hn.
    + destruct (run_returned float_repr K fr) as (valid & out & _ & _ & Hr).
      { unfold valid_inputs. now rewrite Hc, Hn. }
      now rewrite Hr.
    + now rewrite (run_type_error float_repr K fr Hc Hn).
  - rewrite (run_stopped float_repr K fr o Hv). simpl.
    destruct (validate_stop fr Hc) as (f & cs & c & df & _ & _ & _ & _ & Hs).
    rewrite Hs in Hv. now inversion Hv.
Qed.

(** X2. When the required columns are there and some remit amount is a str,
    the run raises the [TypeError] of the comparison with 0 after it has
    rewritten the identifier columns: the caller's tables are left
    standardized although no output is produced. *)
Theorem X2_type_error_after_rewrite (float_repr : Q → string) (K : SortKind) (fr : Frames) :
  has_required_columns fr = true →
  numeric_amounts (reimbursement_data fr) = false →
  process_files_with_adjusted_filtering float_repr K fr
    = (Raised TypeError, standardize float_repr fr).
Proof.
  intros Hc Hn. unfold process_files_with_adjusted_filtering.
  rewrite (validate_pass fr Hc).
  assert (Hstr : Exists (λ r : row, is_str (cell r "Primary Remit Amount") = true)
                        (rows (reimbursement_data (standardize float_repr fr)))).
  { rewrite <- (numeric_amounts_std float_repr) in Hn.
    apply not_true_iff_false in Hn. rewrite numeric_amounts_Forall in Hn.
    apply not_Forall_Exists in Hn; [|intros r; apply _].
    eapply Exists_impl; [exact Hn|]. simpl. intros r Hr. now destruct (is_str _). }
  now rewrite (positive_remit_str _ (enumerate_str _ Hstr)).
Qed.

Module StrAmount.

  (** A ledger whose amount column holds text. *)
Definition ledger : DataFrame :=
    {| columns := ["Dispensed Item NDC"; "Primary Remit Amount"];
       rows := [ {[ "Dispensed Item NDC" := VStr "123";
                    "Primary Remit Amount" := VStr "$12.50" ]} ] |}.

Definition inputs : Frames :=
    {| top_100_data := Example.products;
       nadac_data := Example.prices;
       reimbursement_data := ledger |}.

End StrAmount.

Lemma X2_witness :
  process_files_with_adjusted_filtering Example.float_repr stable_kind StrAmount.inputs
    = (Raised TypeError, standardize Example.float_repr StrAmount.inputs).
Proof.
  apply (X2_type_error_after_rewrite Example.float_repr stable_kind StrAmount.inputs);
    vm_compute; reflexivity.
Defined.

(** X3. When several required columns are missing, the run reports the
    first missing one in the order of the validation loop (Top 100: NDC,
    Drug; NADAC: NDC, NADAC Per Unit; Reimbursement: Dispensed Item NDC,
    Primary Remit Amount), and only that one. *)
Theorem X3_first_missing_column_reported (float_repr : Q → string) (K : SortKind)
    (fr : Frames) (file : string) (get : Frames → DataFrame) (column : string) :
  List.find (is_missing fr) required_pairs = Some (file, get, column) →
  process_files_with_adjusted_filtering float_repr K fr
    = (Stopped (error_message file column), fr).
Proof.
  intros H. apply run_stopped. rewrite validate_first_missing. now rewrite H.
Qed.

Module TwoMissing.

  (** [Drug] is missing from the Top 100 table and [NDC] from the price
      table. *)
Definition inputs : Frames :=
    {| top_100_data := MissingDrug.products;
       nadac_data := {| columns := ["NADAC Per Unit"]; rows := [] |};
       reimbursement_data := Example.ledger |}.

End TwoMissing.

Lemma X3_witness :
  process_files_with_adjusted_filtering Example.float_repr stable_kind TwoMissing.inputs
    = (Stopped (error_message "Top 100" "Drug"), TwoMissing.inputs).
Proof.
  apply (X3_first_missing_column_reported Example.float_repr stable_kind
           TwoMissing.inputs "Top 100" top_100_data "Drug").
  vm_compute. reflexivity.
Defined.

(** ** The fields of an output row, read off the tables handed in *)

(** The ledger record of index [i] can be matched with the identifier
    [ndc]: its remit amount is above 0 and its identifier standardizes to
    [ndc]. *)
Definition eligible (float_repr : Q → string) (fr : Frames) (ndc : string)
    (i : nat) (r : row) : Prop :=
  rows (reimbursement_data fr) !! i = Some r ∧
  (∃ q, number (cell r "Primary Remit Amount") = Some q ∧ (0 < q)%Q) ∧
  PyStr.zfill 11 (PyStr.before_dot (astype_str float_repr (cell r "Dispensed Item NDC"))) = ndc.

(** The unit price the price table gives for [ndc]: that of the last row
    whose identifier standardizes to [ndc], a missing value when there is
    none. *)
Definition last_price (float_repr : Q → string) (prices : list row) (ndc : string) : value :=
  default VNull
    ((λ r : row, cell r "NADAC Per Unit")
       <$> last (filter (λ r : row,
                           PyStr.zfill 11 (astype_str float_repr (cell r "NDC")) = ndc)
                        prices)).

Section Fields.

Variable float_repr : Q → string.
Variable K : SortKind.

Lemma series_get_insert_ne cols (r : row) c c' v d :
  c ≠ c' → series_get cols (<[c := v]> r) c' d = series_get cols r c' d.
Proof. intros H. unfold series_get. now rewrite cell_insert_ne. Qed.

Lemma to_dict_lookup (l : list row) k :
  to_dict l !! k =
  (λ r : row, cell r "NADAC Per Unit")
    <$> last (filter (λ r : row, str_value (cell r "NDC") = k) l).
Proof.
  induction l as [|r l IH] using rev_ind; [reflexivity|].
  unfold to_dict in *. rewrite foldl_snoc, filter_app.
  destruct (decide (str_value (cell r "NDC") = k)) as [Hk|Hk].
  - rewrite Hk, lookup_insert_eq.
    rewrite (filter_cons_True _ r []) by exact Hk.
    rewrite filter_nil. now rewrite last_snoc.
  - rewrite lookup_insert_ne by exact Hk.
    rewrite (filter_cons_False _ r []) by exact Hk.
    rewrite filter_nil, app_nil_r. exact IH.
Qed.

Lemma to_dict_standardized fr ndc :
  default VNull (to_dict (rows (nadac_data (standardize float_repr fr))) !! ndc)
  = last_price float_repr (rows (nadac_data fr)) ndc.
Proof.
  rewrite to_dict_lookup, nadac_rows_standardize. unfold last_price.
  induction (rows (nadac_data fr)) as [|r l IH] using rev_ind; [reflexivity|].
  rewrite fmap_app, !filter_app. cbn [fmap list_fmap].
  destruct (decide (PyStr.zfill 11 (astype_str float_repr (cell r "NDC")) = ndc)) as [Hk|Hk].
  - rewrite (filter_cons_True _ r []) by exact Hk.
    rewrite (filter_cons_True _ _ []) by (now rewrite cell_insert_eq).
    rewrite !filter_nil, !last_snoc. simpl.
    now rewrite cell_insert_ne by discriminate.
  - rewrite (filter_cons_False _ r []) by exact Hk.
    rewrite (filter_cons_False _ _ []) by (now rewrite cell_insert_eq).
    rewrite !filter_nil, !app_nil_r. exact IH.
Qed.

(** What a returned run is made of. *)
Lemma returned_rows fr out fr' :
  process_files_with_adjusted_filtering float_repr K fr = (Returned out, fr') →
  has_required_columns fr = true ∧
  ∃ valid,
    positive_remit (enumerate (rows (reimbursement_data (standardize float_repr fr))))
      = Some valid ∧
    Forall2 (λ (r : row) (o : OutputRecord),
               output_row K (columns (reimbursement_data fr)) valid
                 (to_dict (rows (nadac_data (standardize float_repr fr))))
                 (<["NDC" := standardize_ndc float_repr (cell r "NDC")]> r) = Some o)
            (rows (top_100_data fr)) out.
Proof.
  intros Hrun.
  destruct (run_returned_inv float_repr K fr out fr' Hrun) as [Hvalid ->].
  destruct (run_returned float_repr K fr Hvalid) as (valid & out' & Hp & Hm & Hr).
  rewrite Hr in Hrun. inversion Hrun; subst out'. clear Hrun Hr.
  apply andb_true_iff in Hvalid as [Hc _]. split; [exact Hc|].
  exists valid. split; [exact Hp|].
  apply mapM_Some in Hm. rewrite top_rows_standardize in Hm.
  apply Forall2_fmap_l in Hm.
  assert (Hcols : columns (reimbursement_data (standardize float_repr fr))
                  = columns (reimbursement_data fr)).
  { apply columns_set_column.
    unfold has_required_columns in Hc. rewrite !andb_true_iff in Hc.
    destruct Hc as [[_ Hc] _]. now apply bool_decide_eq_true in Hc. }
  rewrite Hcols in Hm. exact Hm.
Qed.

Lemma reimbursement_match_eligible fr valid :
  positive_remit (enumerate (rows (reimbursement_data (standardize float_repr fr))))
    = Some valid →
  ∀ ndc i (r' : row),
    (i, r') ∈ reimbursement_match valid ndc ↔
    ∃ r : row,
      r' = <["Dispensed Item NDC" :=
               standardize_dispensed_ndc float_repr (cell r "Dispensed Item NDC")]> r ∧
      eligible float_repr fr ndc i r.
Proof.
  intros Hp ndc i r'. pose proof (positive_remit_elem _ _ Hp) as Hel.
  rewrite elem_of_reimbursement_match, Hel, elem_of_enumerate.
  rewrite ledger_rows_standardize, list_lookup_fmap, fmap_Some. simpl.
  unfold eligible. split.
  - intros [[(r & Hr & ->) (q & Hq & Hpos)] Hndc]. exists r. split; [reflexivity|].
    rewrite cell_insert_ne in Hq by discriminate.
    rewrite cell_insert_eq in Hndc. simpl in Hndc. eauto 10.
  - intros (r & -> & Hr & (q & Hq & Hpos) & Hndc).
    rewrite cell_insert_ne by discriminate. rewrite cell_insert_eq. simpl. eauto 10.
Qed.

(** Every row of a returned table satisfies what each way of building a row
    establishes. *)
Lemma returned_rows_Forall fr out fr' (P : OutputRecord → Prop) :
  process_files_with_adjusted_filtering float_repr K fr = (Returned out, fr') →
  (∀ valid (r : row) o,
     has_required_columns fr = true →
     positive_remit (enumerate (rows (reimbursement_data (standardize float_repr fr))))
       = Some valid →
     output_row K (columns (reimbursement_data fr)) valid
       (to_dict (rows (nadac_data (standardize float_repr fr))))
       (<["NDC" := standardize_ndc float_repr (cell r "NDC")]> r) = Some o →
     P o) →
  Forall P out.
Proof.
  intros Hrun HP. destruct (returned_rows fr out fr' Hrun) as (Hc & valid & Hp & HF).
  clear Hrun. induction HF as [|r o rs os Ho _ IH]; [constructor|].
  constructor; [|exact IH]. now apply (HP valid r o).
Qed.

End Fields.

Module DuplicatePrice.

  (** Two price rows standardize to the product's identifier; a third one
      does not. *)
Definition prices : DataFrame :=
    {| columns := ["NDC"; "NADAC Per Unit"];
       rows := [ {[ "NDC" := VInt 123; "NADAC Per Unit" := VNum (45 # 100) ]};
                 {[ "NDC" := VStr "00000000123"; "NADAC Per Unit" := VNum (1 # 2) ]};
                 {[ "NDC" := VStr "456"; "NADAC Per Unit" := VNum 7 ]} ] |}.

Definition inputs : Frames :=
    {| top_100_data := Example.products;
       nadac_data := prices;
       reimbursement_data := ZeroAmount.ledger |}.

Definition output : list OutputRecord :=
    [ {| Drug_Name := VStr "Aspirin";
         NDC := VStr "00000000123";
         NADAC := VNum (1 # 2);
         Bin := Not_Available;
         PCN := Not_Available;
         Network := VNull;
         Reimbursement := VInt 4;
         Price := VNull |} ].

End DuplicatePrice.

Module Unmatched.

  (** No ledger row carries the product's identifier, and no price row
      either. *)
Definition inputs : Frames :=
    {| top_100_data :=
         {| columns := ["NDC"; "Drug"];
            rows := [ {[ "NDC" := VStr "999"; "Drug" := VStr "Ibuprofen" ]} ] |};
       nadac_data := Example.prices;
       reimbursement_data := NullNetwork.ledger |}.

Definition output : list OutputRecord :=
    [ {| Drug_Name := VStr "Ibuprofen";
         NDC := VStr "00000000999";
         NADAC := VNull;
         Bin := Not_Available;
         PCN := Not_Available;
         Network := Not_Available;
         Reimbursement := VNum 0;
         Price := VNull |} ].

End Unmatched.

Lemma run_with_outcome (float_repr : Q → string) (K : SortKind) (fr : Frames) out :
  (process_files_with_adjusted_filtering float_repr K fr).1 = Returned out →
  process_files_with_adjusted_filtering float_repr K fr
  = (Returned out, (process_files_with_adjusted_filtering float_repr K fr).2).
Proof. intros H. rewrite <- H. now destruct (process_files_with_adjusted_filtering _ _ _). Qed.

(** X4. The NADAC field of an output row is the unit price of the last row
    of the price table whose identifier standardizes to the row's
    identifier (a later duplicate overwrites an earlier one), and the
    missing value when the price table has no such row. *)
Theorem X4_nadac_is_last_price (float_repr : Q → string) (K : SortKind)
    (fr fr' : Frames) (output_rows : list OutputRecord) :
  process_files_with_adjusted_filtering float_repr K fr = (Returned output_rows, fr') →
  Forall (λ o : OutputRecord,
            NADAC o = last_price float_repr (rows (nadac_data fr)) (str_value (NDC o)))
         output_rows.
Proof.
  intros Hrun. apply (returned_rows_Forall float_repr K fr output_rows fr' _ Hrun).
  intros valid r o _ _ Ho.
  apply output_row_inv in Ho as (sel & _ & _ & Hn & Hp & _).
  rewrite Hp, Hn. apply to_dict_standardized.
Qed.

Lemma X4_witness :
  Forall (λ o : OutputRecord,
            NADAC o = last_price Example.float_repr (rows (nadac_data DuplicatePrice.inputs))
                        (str_value (NDC o)))
         DuplicatePrice.output.
Proof.
  eapply (X4_nadac_is_last_price Example.float_repr stable_kind DuplicatePrice.inputs _ DuplicatePrice.output).
  apply run_with_outcome. vm_compute. reflexivity.
Defined.

(** X5. When no ledger record with a remit amount above 0 standardizes to
    the identifier of an output row, the row carries the defaults: Bin, PCN
    and Network are ["Not Available"] and Reimbursement is 0.0. *)
Theorem X5_unmatched_defaults (float_repr : Q → string) (K : SortKind)
    (fr fr' : Frames) (output_rows : list OutputRecord) :
  process_files_with_adjusted_filtering float_repr K fr = (Returned output_rows, fr') →
  Forall (λ o : OutputRecord,
            (¬ ∃ i r, eligible float_repr fr (str_value (NDC o)) i r) →
            Bin o = Not_Available ∧ PCN o = Not_Available ∧
            Network o = Not_Available ∧ Reimbursement o = VNum 0)
         output_rows.
Proof.
  intros Hrun. apply (returned_rows_Forall float_repr K fr output_rows fr' _ Hrun).
  intros valid r o _ Hp Ho Hno.
  apply output_row_inv in Ho as (sel & Hsel & _ & Hn & _ & _ & Hf).
  apply best_match_inv in Hsel. destruct sel as [[i r']|]; [|tauto].
  exfalso. apply Hno. destruct Hsel as [Hin _].
  apply (reimbursement_match_eligible float_repr fr valid Hp) in Hin as (r0 & _ & He).
  exists i, r0. now rewrite Hn.
Qed.

Lemma X5_witness :
  Forall (λ o : OutputRecord,
            (¬ ∃ i r, eligible Example.float_repr Unmatched.inputs (str_value (NDC o)) i r) →
            Bin o = Not_Available ∧ PCN o = Not_Available ∧
            Network o = Not_Available ∧ Reimbursement o = VNum 0)
         Unmatched.output.
Proof.
  eapply (X5_unmatched_defaults Example.float_repr stable_kind Unmatched.inputs _ Unmatched.output).
  apply run_with_outcome. vm_compute. reflexivity.
Defined.

(** X6. When some ledger record with a remit amount above 0 standardizes to
    the identifier of an output row, the four reimbursement fields of the
    row all come from one and the same such record: Reimbursement is its
    remit amount, which no other such record exceeds, and Bin, PCN and
    Network are what [Series.get] reads on that record (the cell when the
    ledger has the column, ["Not Available"] when it has not). *)
Theorem X6_fields_from_one_greatest_record (float_repr : Q → string) (K : SortKind)
    (fr fr' : Frames) (output_rows : list OutputRecord) :
  process_files_with_adjusted_filtering float_repr K fr = (Returned output_rows, fr') →
  Forall (λ o : OutputRecord,
            (∃ i r, eligible float_repr fr (str_value (NDC o)) i r) →
            ∃ i (r : row) q,
              eligible float_repr fr (str_value (NDC o)) i r ∧
              number (cell r "Primary Remit Amount") = Some q ∧
              Reimbursement o = cell r "Primary Remit Amount" ∧
              Bin o = series_get (columns (reimbursement_data fr)) r
                        "Primary Third Party Bin" Not_Available ∧
              PCN o = series_get (columns (reimbursement_data fr)) r
                        "Primary Third Party PCN" Not_Available ∧
              Network o = series_get (columns (reimbursement_data fr)) r
                            "Primary Network Reimbursement" Not_Available ∧
              ∀ j (r2 : row) q2,
                eligible float_repr fr (str_value (NDC o)) j r2 →
                number (cell r2 "Primary Remit Amount") = Some q2 → (q2 <= q)%Q)
         output_rows.
Proof.
  intros Hrun. apply (returned_rows_Forall float_repr K fr output_rows fr' _ Hrun).
  intros valid r o Hc Hp Ho (j0 & r0 & He0).
  apply output_row_inv in Ho as (sel & Hsel & _ & Hn & _ & _ & Hf).
  rewrite Hn. rewrite Hn in He0.
  pose proof (reimbursement_match_eligible float_repr fr valid Hp) as Hme.
  apply best_match_inv in Hsel. destruct sel as [[i r']|].
  - destruct Hsel as [Hin Hmax]. destruct Hf as (Hbin & Hpcn & Hnet & Hre). simpl in *.
    apply Hme in Hin as (rb & -> & Heb).
    destruct Heb as (Hlk & (q & Hq & Hpos) & Hid).
    exists i, rb, q. split; [unfold eligible; eauto 10|]. split; [exact Hq|].
    rewrite !series_get_insert_ne in Hbin, Hpcn, Hnet, Hre by discriminate.
    split.
    { rewrite Hre. unfold series_get. rewrite bool_decide_eq_true_2; [reflexivity|].
      unfold has_required_columns in Hc. rewrite !andb_true_iff in Hc.
      destruct Hc as [_ Hc]. now apply bool_decide_eq_true in Hc. }
    split; [exact Hbin|]. split; [exact Hpcn|]. split; [exact Hnet|].
    intros j r2 q2 He2 Hq2.
    assert (Hin2 : (j, <["Dispensed Item NDC" :=
                           standardize_dispensed_ndc float_repr
                             (cell r2 "Dispensed Item NDC")]> r2)
                   ∈ reimbursement_match valid
                       (str_value (cell (<["NDC" := standardize_ndc float_repr
                                                      (cell r "NDC")]> r) "NDC"))).
    { apply Hme. exists r2. now split. }
    apply Hmax in Hin2. simpl in Hin2.
    rewrite !amount_key_insert in Hin2 by discriminate.
    now rewrite (number_amount_key _ _ Hq), (number_amount_key _ _ Hq2) in Hin2.
  - exfalso.
    assert (Hin : (j0, <["Dispensed Item NDC" :=
                           standardize_dispensed_ndc float_repr
                             (cell r0 "Dispensed Item NDC")]> r0)
                  ∈ reimbursement_match valid
                      (str_value (cell (<["NDC" := standardize_ndc float_repr
                                                     (cell r "NDC")]> r) "NDC"))).
    { apply Hme. exists r0. now split. }
    rewrite Hsel in Hin. now apply elem_of_nil in Hin.
Qed.

Lemma X6_witness :
  Forall (λ o : OutputRecord,
            (∃ i r, eligible Example.float_repr ZeroAmount.inputs (str_value (NDC o)) i r) →
            ∃ i (r : row) q,
              eligible Example.float_repr ZeroAmount.inputs (str_value (NDC o)) i r ∧
              number (cell r "Primary Remit Amount") = Some q ∧
              Reimbursement o = cell r "Primary Remit Amount" ∧
              Bin o = series_get (columns (reimbursement_data ZeroAmount.inputs)) r
                        "Primary Third Party Bin" Not_Available ∧
              PCN o = series_get (columns (reimbursement_data ZeroAmount.inputs)) r
                        "Primary Third Party PCN" Not_Available ∧
              Network o = series_get (columns (reimbursement_data ZeroAmount.inputs)) r
                            "Primary Network Reimbursement" Not_Available ∧
              ∀ j (r2 : row) q2,
                eligible Example.float_repr ZeroAmount.inputs (str_value (NDC o)) j r2 →
                number (cell r2 "Primary Remit Amount") = Some q2 → (q2 <= q)%Q)
         ZeroAmount.output.
Proof.
  eapply (X6_fields_from_one_greatest_record Example.float_repr stable_kind ZeroAmount.inputs _ ZeroAmount.output).
  apply run_with_outcome. vm_compute. reflexivity.
Defined.

Module Expected.

  (** What the engine returns on [Example.inputs]. *)
Definition example_output : list OutputRecord :=
    [ {| Drug_Name := VStr "Aspirin";
         NDC := VStr "00000000123";
         NADAC := VNum (45 # 100);
         Bin := VNull;
         PCN := Not_Available;
         Network := VStr "NET1";
         Reimbursement := VNum (25 # 2);
         Price := VNull |} ].

End Expected.

(** X7. The optional columns of the ledger: when the ledger has no
    [Primary Third Party Bin] column, every output row, matched or not, has
    Bin ["Not Available"]; likewise for [Primary Third Party PCN] and PCN,
    and for [Primary Network Reimbursement] and Network. *)
Theorem X7_absent_column_defaults (float_repr : Q → string) (K : SortKind)
    (fr fr' : Frames) (output_rows : list OutputRecord) :
  process_files_with_adjusted_filtering float_repr K fr = (Returned output_rows, fr') →
  ("Primary Third Party Bin" ∉ columns (reimbursement_data fr) →
   Forall (λ o : OutputRecord, Bin o = Not_Available) output_rows) ∧
  ("Primary Third Party PCN" ∉ columns (reimbursement_data fr) →
   Forall (λ o : OutputRecord, PCN o = Not_Available) output_rows) ∧
  ("Primary Network Reimbursement" ∉ columns (reimbursement_data fr) →
   Forall (λ o : OutputRecord, Network o = Not_Available) output_rows).
Proof.
  intros Hrun.
  assert (Hget : ∀ (r : row) c, c ∉ columns (reimbursement_data fr) →
                   series_get (columns (reimbursement_data fr)) r c Not_Available
                   = Not_Available).
  { intros r c Hc. unfold series_get. now rewrite bool_decide_eq_false_2. }
  repeat split; intros Habs;
    apply (returned_rows_Forall float_repr K fr output_rows fr' _ Hrun);
    intros valid r o _ _ Ho;
    apply output_row_inv in Ho as (sel & _ & _ & _ & _ & _ & Hf);
    (destruct sel as [best|]; [|tauto]);
    destruct Hf as (Hbin & Hpcn & Hnet & _).
  - now rewrite Hbin, Hget.
  - now rewrite Hpcn, Hget.
  - now rewrite Hnet, Hget.
Qed.

Lemma X7_witness :
  Forall (λ o : OutputRecord, PCN o = Not_Available) Expected.example_output.
Proof.
  eapply (X7_absent_column_defaults Example.float_repr stable_kind Example.inputs _
            Expected.example_output).
  - apply run_with_outcome. vm_compute. reflexivity.
  - apply (bool_decide_unpack _). vm_compute. exact I.
Defined.

(** X8. Every output row has a missing Price, and its NDC is a str of at
    least 11 characters: the standardized identifier of its product row. *)
Theorem X8_price_and_identifier_shape (float_repr : Q → string) (K : SortKind)
    (fr fr' : Frames) (output_rows : list OutputRecord) :
  process_files_with_adjusted_filtering float_repr K fr = (Returned output_rows, fr') →
  Forall (λ o : OutputRecord,
            Price o = VNull ∧
            ∃ s, NDC o = VStr s ∧ 11 <= String.length s)
         output_rows.
Proof.
  intros Hrun. apply (returned_rows_Forall float_repr K fr output_rows fr' _ Hrun).
  intros valid r o _ _ Ho.
  apply output_row_inv in Ho as (sel & _ & _ & Hn & _ & Hp & _).
  split; [exact Hp|]. rewrite Hn, cell_insert_eq.
  eexists. split; [reflexivity|]. rewrite PyStr.length_zfill. lia.
Qed.

Lemma X8_witness :
  Forall (λ o : OutputRecord,
            Price o = VNull ∧
            ∃ s, NDC o = VStr s ∧ 11 <= String.length s)
         Unmatched.output.
Proof.
  eapply (X8_price_and_identifier_shape Example.float_repr stable_kind Unmatched.inputs _
            Unmatched.output).
  apply run_with_outcome. vm_compute. reflexivity.
Defined.

(** ** What the sorting algorithm can change *)

Section TwoKinds.

Variable float_repr : Q → string.
Variables K K' : SortKind.

(** Two output rows agree on everything but the record they were matched
    with, and the amounts of the two records are the same number. *)
Definition same_but_record (o o' : OutputRecord) : Prop :=
  Drug_Name o = Drug_Name o' ∧ NDC o = NDC o' ∧ NADAC o = NADAC o' ∧
  Price o = Price o' ∧
  ∃ q q', number (Reimbursement o) = Some q ∧
          number (Reimbursement o') = Some q' ∧ (q == q')%Q.

Lemma output_row_two_kinds cols valid lookup (r : row) o o' :
  "Primary Remit Amount" ∈ cols →
  (∀ ir : nat * row, ir ∈ valid →
     ∃ q, number (cell ir.2 "Primary Remit Amount") = Some q) →
  output_row K cols valid lookup r = Some o →
  output_row K' cols valid lookup r = Some o' →
  same_but_record o o'.
Proof.
  intros Hcol Hnum Ho Ho'.
  apply output_row_inv in Ho as (sel & Hsel & Hd & Hn & Hp & Hpr & Hf).
  apply output_row_inv in Ho' as (sel' & Hsel' & Hd' & Hn' & Hp' & Hpr' & Hf').
  unfold same_but_record. rewrite Hd, Hd', Hn, Hn', Hp, Hp', Hpr, Hpr'.
  do 4 (split; [reflexivity|]).
  apply best_match_inv in Hsel, Hsel'.
  destruct sel as [b|], sel' as [b'|].
  - destruct Hsel as [Hin Hmax], Hsel' as [Hin' Hmax'].
    destruct Hf as (_ & _ & _ & Hre), Hf' as (_ & _ & _ & Hre').
    unfold series_get in Hre, Hre'. rewrite bool_decide_eq_true_2 in Hre, Hre' by exact Hcol.
    destruct (Hnum b) as [q Hq];
      [now apply elem_of_reimbursement_match in Hin as [Hin _]|].
    destruct (Hnum b') as [q' Hq'];
      [now apply elem_of_reimbursement_match in Hin' as [Hin' _]|].
    exists q, q'. rewrite Hre, Hre'. split; [exact Hq|]. split; [exact Hq'|].
    apply Hmax in Hin'. apply Hmax' in Hin.
    rewrite (number_amount_key _ _ Hq), (number_amount_key _ _ Hq') in Hin, Hin'.
    now apply Qle_antisym.
  - destruct Hsel as [Hin _]. rewrite Hsel' in Hin. now apply elem_of_nil in Hin.
  - destruct Hsel' as [Hin _]. rewrite Hsel in Hin. now apply elem_of_nil in Hin.
  - destruct Hf as (_ & _ & _ & Hre), Hf' as (_ & _ & _ & Hre').
    exists 0%Q, 0%Q. rewrite Hre, Hre'. repeat split; reflexivity.
Qed.

End TwoKinds.

(** X9. The sorting algorithm can only change which of several tied records
    an output row is matched with: when a run returns with one algorithm, it
    returns with any other, leaves the same tables, and row by row the two
    outputs have the same Drug Name, NDC, NADAC and Price, and Reimbursement
    fields of the same numeric value. *)
Theorem X9_sort_kind_only_picks_among_ties (float_repr : Q → string) (K K' : SortKind)
    (fr fr' : Frames) (output_rows : list OutputRecord) :
  process_files_with_adjusted_filtering float_repr K fr = (Returned output_rows, fr') →
  ∃ output_rows',
    process_files_with_adjusted_filtering float_repr K' fr = (Returned output_rows', fr') ∧
    Forall2 same_but_record output_rows output_rows'.
Proof.
  intros Hrun.
  destruct (run_returned_inv float_repr K fr output_rows fr' Hrun) as [Hvalid Hfr].
  destruct (run_returned float_repr K' fr Hvalid) as (valid' & out' & _ & _ & Hr').
  exists out'. split; [now rewrite Hr', Hfr|].
  destruct (returned_rows float_repr K fr _ _ Hrun) as (Hc & valid & Hp & HF).
  destruct (returned_rows float_repr K' fr _ _ Hr') as (_ & valid2 & Hp2 & HF2).
  rewrite Hp in Hp2. inversion Hp2; subst valid2. clear Hp2 Hrun Hr'.
  assert (Hcol : "Primary Remit Amount" ∈ columns (reimbursement_data fr)).
  { unfold has_required_columns in Hc. rewrite !andb_true_iff in Hc.
    destruct Hc as [_ Hc]. now apply bool_decide_eq_true in Hc. }
  assert (Hnum : ∀ ir : nat * row, ir ∈ valid →
                   ∃ q, number (cell ir.2 "Primary Remit Amount") = Some q).
  { intros ir Hin. apply (positive_remit_elem _ _ Hp) in Hin as [_ (q & Hq & _)]. eauto. }
  revert out' HF2. induction HF as [|r o rs os Ho _ IH]; intros out' HF2.
  - inversion HF2. constructor.
  - inversion HF2 as [|r2 o' rs2 os' Ho' HF2' E1 E2]; subst. constructor.
    + eapply output_row_two_kinds; eauto.
    + now apply IH.
Qed.

Lemma X9_witness :
  ∃ output_rows',
    process_files_with_adjusted_filtering Example.float_repr stable_kind Tie.inputs
      = (Returned output_rows',
         (process_files_with_adjusted_filtering Example.float_repr stable_kind
            Tie.inputs).2) ∧
    Forall2 same_but_record
      [ {| Drug_Name := VStr "Aspirin";
           NDC := VStr "00000000123";
           NADAC := VNum (45 # 100);
           Bin := Not_Available;
           PCN := Not_Available;
           Network := VStr "FIRST";
           Reimbursement := VNum 10;
           Price := VNull |} ]
      output_rows'.
Proof.
  apply (X9_sort_kind_only_picks_among_ties Example.float_repr stable_kind stable_kind
           Tie.inputs).
  apply run_with_outcome. vm_compute. reflexivity.
Defined.

(** ** Inputs without ties *)

(** The amount of [b] is above the amount of [o]. *)
Definition beats (b o : nat * row) : bool :=
  negb (Qle_bool (amount_key b.2) (amount_key o.2)).

(** Some row of [l] beats all the rows of [pre] and all the other rows of
    [l]. *)
Fixpoint has_strict_max_from (pre l : list (nat * row)) : bool :=
  match l with
  | [] => false
  | b :: post =>
      (forallb (beats b) pre && forallb (beats b) post)
      || has_strict_max_from (pre ++ [b]) post
  end.

(** A match set is undisputed when it is empty or one of its rows has an
    amount above the amounts of all the others. *)
Definition undisputed (l : list (nat * row)) : bool :=
  match l with
  | [] => true
  | _ => has_strict_max_from [] l
  end.

(** No product of the Top 100 table has two matched records that share the
    greatest amount. *)
Definition no_ties_at_maximum (float_repr : Q → string) (fr : Frames) : bool :=
  match positive_remit
          (enumerate (rows (reimbursement_data (standardize float_repr fr)))) with
  | None => true
  | Some valid =>
      forallb (λ r : row, undisputed (reimbursement_match valid (str_value (cell r "NDC"))))
              (rows (top_100_data (standardize float_repr fr)))
  end.

Lemma has_strict_max_from_split pre l :
  has_strict_max_from pre l = true →
  ∃ pre' best post,
    pre ++ l = pre' ++ best :: post ∧ forallb (beats best) (pre' ++ post) = true.
Proof.
  revert pre. induction l as [|b post IH]; intros pre H; [discriminate|].
  cbn [has_strict_max_from] in H. apply orb_true_iff in H as [H|H].
  - exists pre, b, post. split; [reflexivity|]. now rewrite forallb_app.
  - destruct (IH _ H) as (pre' & best & post' & Heq & Hb).
    exists pre', best, post'. split; [|exact Hb].
    rewrite <- Heq. now rewrite <- app_assoc.
Qed.

Lemma undisputed_kind_irrelevant (K K' : SortKind) valid ndc :
  undisputed (reimbursement_match valid ndc) = true →
  best_match K valid ndc = best_match K' valid ndc.
Proof.
  intros H. destruct (reimbursement_match valid ndc) as [|b rest] eqn:E.
  - now rewrite !best_match_none.
  - unfold undisputed in H.
    apply has_strict_max_from_split in H as (pre & best & post & Heq & Hb).
    simpl in Heq. rewrite Heq in E.
    rewrite (best_match_strict_max K valid ndc pre best post E Hb).
    now rewrite (best_match_strict_max K' valid ndc pre best post E Hb).
Qed.

(** X10. When no product has two matched ledger records that share the
    greatest remit amount, the result of a run (outcome and tables) is the
    same for every sorting algorithm: without ties the output is fully
    determined by the three tables. *)
Theorem X10_no_ties_fully_determined (float_repr : Q → string) (K K' : SortKind)
    (fr : Frames) :
  no_ties_at_maximum float_repr fr = true →
  process_files_with_adjusted_filtering float_repr K fr
  = process_files_with_adjusted_filtering float_repr K' fr.
Proof.
  intros H. apply run_kind_ext. intros valid Hp.
  unfold no_ties_at_maximum in H. rewrite Hp in H.
  apply Forall_forall. intros r Hr. apply undisputed_kind_irrelevant.
  rewrite forallb_forall in H. apply H. now apply list_elem_of_In.
Qed.

Module SecondWins.

  (** The greatest amount is on the second of the two matching rows. *)
Definition ledger : DataFrame :=
    {| columns := ["Dispensed Item NDC"; "Primary Remit Amount"];
       rows := [ {[ "Dispensed Item NDC" := VStr "123";
                    "Primary Remit Amount" := VNum 8 ]};
                 {[ "Dispensed Item NDC" := VInt 123;
                    "Primary Remit Amount" := VNum (25 # 2) ]} ] |}.

Definition inputs : Frames :=
    {| top_100_data := Example.products;
       nadac_data := Example.prices;
       reimbursement_data := ledger |}.

End SecondWins.

Lemma X10_witness :
  process_files_with_adjusted_filtering Example.float_repr stable_kind SecondWins.inputs
  = process_files_with_adjusted_filtering Example.float_repr stable_kind
      SecondWins.inputs.
Proof.
  apply (X10_no_ties_fully_determined Example.float_repr stable_kind stable_kind
           SecondWins.inputs).
  vm_compute. reflexivity.
Defined.

(** ** Standardized identifiers *)

Lemma before_dot_app (s t : string) :
  PyStr.has_dot s = false → PyStr.before_dot (s +:+ String "."%char t) = s.
Proof.
  induction s as [|c s IH]; simpl; [reflexivity|].
  destruct (Ascii.eqb c "."%char); simpl; [discriminate|].
  intros H. now rewrite IH.
Qed.

(** X11. An identifier of the ledger that prints as [s.t], with no dot in
    [s] (a number read with a fractional part), is standardized to the same
    string as the identifier [s] of a product or price row: the two join. *)
Theorem X11_fraction_is_stripped (float_repr : Q → string) (v : value) (s t : string) :
  astype_str float_repr v = s +:+ String "."%char t →
  PyStr.has_dot s = false →
  standardize_dispensed_ndc float_repr v = standardize_ndc float_repr (VStr s).
Proof.
  intros Hv Hs. unfold standardize_dispensed_ndc, standardize_ndc. simpl.
  now rewrite Hv, before_dot_app.
Qed.

Lemma X11_witness :
  standardize_dispensed_ndc Example.float_repr (VNum 123)
  = standardize_ndc Example.float_repr (VStr "123").
Proof.
  apply (X11_fraction_is_stripped Example.float_repr (VNum 123) "123" "0");
    vm_compute; reflexivity.
Defined.

(** X12. The shape of a standardized identifier: it is a str whose length
    is the greater of 11 and the length of the printed value; a printed
    value shorter than 11 characters that does not start with a sign is kept
    with zeros in front of it; and the standardized identifier of a ledger
    row holds no dot. *)
Theorem X12_standardized_shape (float_repr : Q → string) (v : value) :
  (∃ s, standardize_ndc float_repr v = VStr s ∧
        String.length s = Nat.max 11 (String.length (astype_str float_repr v))) ∧
  (∃ s, standardize_dispensed_ndc float_repr v = VStr s ∧ PyStr.has_dot s = false) ∧
  (∀ c rest, astype_str float_repr v = String c rest →
             PyStr.is_sign c = false →
             String.length (String c rest) < 11 →
             standardize_ndc float_repr v
             = VStr (PyStr.zeros (11 - String.length (String c rest)) +:+ String c rest)).
Proof.
  split; [|split].
  - eexists. split; [reflexivity|]. apply PyStr.length_zfill.
  - eexists. split; [reflexivity|].
    rewrite PyStr.has_dot_zfill. apply PyStr.has_dot_before_dot.
  - intros c rest Hs Hsign Hlen. unfold standardize_ndc, PyStr.zfill. rewrite Hs.
    destruct (Nat.leb_spec 11 (String.length (String c rest))) as [Hle|_]; [lia|].
    now rewrite Hsign.
Qed.

Lemma X12_witness :
  standardize_ndc Example.float_repr (VInt 42) = VStr "00000000042".
Proof.
  exact (proj2 (proj2 (X12_standardized_shape Example.float_repr (VInt 42)))
           "4"%char "2" eq_refl eq_refl (ltac:(vm_compute; lia))).
Defined.

(** ** Running the engine again *)

(** X15. A second run on the very tables the first run was handed, whose
    identifier columns the first run may have rewritten, ends as the first
    run did and leaves the tables as the first run left them: standardizing
    a standardized identifier changes nothing, and nothing else of the tables
    is written. *)
Theorem X15_rerun_same_result (float_repr : Q → string) (K : SortKind) (fr : Frames) :
  process_files_with_adjusted_filtering float_repr K
    (process_files_with_adjusted_filtering float_repr K fr).2
  = process_files_with_adjusted_filtering float_repr K fr.
Proof.
  destruct (validate_cases fr) as [[Hc Hv]|[Hc [o Hv]]].
  - rewrite (run_leaves_standardized float_repr K fr Hv).
    now apply run_standardized.
  - rewrite (run_stopped float_repr K fr o Hv). simpl.
    now apply run_stopped.
Qed.

(** * The Streamlit script around the engine *)

(** What one run of the script puts on the page, in order. *)
Inductive element :=
  | title (body : string)
  | file_uploader (label : string) (type : list string)
  | button (label : string)
  | error (body : string)
  | write (body : string)
  | dataframe (data : list OutputRecord)
  | download_button (label data file_name mime : string).

Section Script.

(** The uploaded files, and the library calls of the script: [pd.read_csv]
    (a DataFrame, or the text of the exception it raises),
    [to_csv(index=False).encode('utf-8')], and [str] of an exception. *)
Variable file : Type.
Variable read_csv : file → string + DataFrame.
Variable to_csv : list OutputRecord → string.
Variable exn_text : exn → string.
Variable float_repr : Q → string.
Variable K : SortKind.

(** The widgets every run draws. *)
Definition widgets : list element :=
  [ title "NADAC Pricing Tool";
    file_uploader "Upload Top 100 Spreadsheet (CSV)" ["csv"];
    file_uploader "Upload NADAC Spreadsheet (CSV)" ["csv"];
    file_uploader "Upload Reimbursement Spreadsheet (CSV)" ["csv"];
    button "Process Data" ].

(** The body of [try]: the three files are read in turn, then the engine
    runs. An exception is caught and shown; [st.stop] ends the script after
    the engine has shown its message. *)
Definition process_data (top_100_file nadac_file reimbursement_file : file)
  : list element :=
  match read_csv top_100_file with
  | inl e => [error ("An error occurred: " +:+ e)]
  | inr top_100_data =>
      match read_csv nadac_file with
      | inl e => [error ("An error occurred: " +:+ e)]
      | inr nadac_data =>
          match read_csv reimbursement_file with
          | inl e => [error ("An error occurred: " +:+ e)]
          | inr reimbursement_data =>
              match (process_files_with_adjusted_filtering float_repr K
                       {| top_100_data := top_100_data;
                          nadac_data := nadac_data;
                          reimbursement_data := reimbursement_data |}).1 with
              | Returned output_data =>
                  [ write "Processed Data:";
                    dataframe output_data;
                    download_button "Download Output CSV" (to_csv output_data)
                      "processed_output.csv" "text/csv" ]
              | Stopped message => [error message]
              | Raised e => [error ("An error occurred: " +:+ exn_text e)]
              end
          end
      end
  end.

(** One run of the script, given what the widgets return: the uploaded files
    ([None] when nothing is uploaded) and whether the button was pressed. *)
Definition app (top_100_file nadac_file reimbursement_file : option file)
    (pressed : bool) : list element :=
  widgets ++
  if pressed then
    match top_100_file, nadac_file, reimbursement_file with
    | Some t, Some n, Some r => process_data t n r
    | _, _, _ => [error "Please upload all three required files."]
    end
  else [].

(** The three files are uploaded and read, and the tables are valid inputs
    of the engine. *)
Definition ready (top_100_file nadac_file reimbursement_file : option file) : Prop :=
  ∃ t n r top_100_data nadac_data reimbursement_data,
    top_100_file = Some t ∧ nadac_file = Some n ∧ reimbursement_file = Some r ∧
    read_csv t = inr top_100_data ∧ read_csv n = inr nadac_data ∧
    read_csv r = inr reimbursement_data ∧
    valid_inputs {| top_100_data := top_100_data;
                    nadac_data := nadac_data;
                    reimbursement_data := reimbursement_data |} = true.

Lemma process_data_cases t n r :
  (∃ msg, process_data t n r = [error msg] ∧
          ¬ ready (Some t) (Some n) (Some r)) ∨
  (∃ out, process_data t n r =
            [ write "Processed Data:";
              dataframe out;
              download_button "Download Output CSV" (to_csv out)
                "processed_output.csv" "text/csv" ] ∧
          ready (Some t) (Some n) (Some r)).
Proof.
  unfold process_data.
  destruct (read_csv t) as [e|td] eqn:Et.
  { left. eexists. split; [reflexivity|].
    intros (t0 & n0 & r0 & a & b & c & Ht & _ & _ & Hr & _).
    inversion Ht; subst. congruence. }
  destruct (read_csv n) as [e|nd] eqn:En.
  { left. eexists. split; [reflexivity|].
    intros (t0 & n0 & r0 & a & b & c & _ & Hn & _ & _ & Hr & _).
    inversion Hn; subst. congruence. }
  destruct (read_csv r) as [e|rd] eqn:Er.
  { left. eexists. split; [reflexivity|].
    intros (t0 & n0 & r0 & a & b & c & _ & _ & Hn & _ & _ & Hr & _).
    inversion Hn; subst. congruence. }
  pose proof (run_returns_iff float_repr K
                {| top_100_data := td; nadac_data := nd; reimbursement_data := rd |}) as Hiff.
  destruct (process_files_with_adjusted_filtering float_repr K _).1 as [out|msg|e] eqn:Eo.
  - right. exists out. split; [reflexivity|].
    exists t, n, r, td, nd, rd. repeat split; try assumption.
    apply Hiff. now exists out.
  - left. eexists. split; [reflexivity|].
    intros (t0 & n0 & r0 & a & b & c & Ht & Hn & Hr & Ha & Hb & Hc & Hv).
    inversion Ht; inversion Hn; inversion Hr; subst.
    rewrite Et in Ha. rewrite En in Hb. rewrite Er in Hc.
    inversion Ha; inversion Hb; inversion Hc; subst.
    apply Hiff in Hv as [out Hout]. discriminate.
  - left. eexists. split; [reflexivity|].
    intros (t0 & n0 & r0 & a & b & c & Ht & Hn & Hr & Ha & Hb & Hc & Hv).
    inversion Ht; inversion Hn; inversion Hr; subst.
    rewrite Et in Ha. rewrite En in Hb. rewrite Er in Hc.
    inversion Ha; inversion Hb; inversion Hc; subst.
    apply Hiff in Hv as [out Hout]. discriminate.
Qed.

End Script.

(** X13. One run of the script draws the five widgets and then, when the
    button was not pressed, nothing; when it was pressed, either exactly one
    error message and neither table nor download (when the inputs are not
    ready: a file is missing or unreadable, a required column is missing, or
    a remit amount is a str), or no error but the caption, the table and a
    download of that very table as [processed_output.csv] (when they are
    ready). A press is never left without an answer, and a download is never
    offered beside an error. *)
Theorem X13_page_after_press (file : Type) (read_csv : file → string + DataFrame)
    (to_csv : list OutputRecord → string) (exn_text : exn → string)
    (float_repr : Q → string) (K : SortKind)
    (top_100_file nadac_file reimbursement_file : option file) (pressed : bool) :
  let page := app file read_csv to_csv exn_text float_repr K
                top_100_file nadac_file reimbursement_file pressed in
  (pressed = false ∧ page = widgets) ∨
  (pressed = true ∧
   ((∃ msg, page = widgets ++ [error msg] ∧
            ¬ ready file read_csv top_100_file nadac_file reimbursement_file) ∨
    (∃ out, page = widgets ++
                     [ write "Processed Data:";
                       dataframe out;
                       download_button "Download Output CSV" (to_csv out)
                         "processed_output.csv" "text/csv" ] ∧
            ready file read_csv top_100_file nadac_file reimbursement_file))).
Proof.
  intros page. subst page. unfold app.
  destruct pressed; [right; split; [reflexivity|] | left; split; [reflexivity|]].
  2:{ now rewrite app_nil_r. }
  destruct top_100_file as [t|], nadac_file as [n|], reimbursement_file as [r|];
    try (left; eexists; split; [reflexivity|];
         intros (t0 & n0 & r0 & a & b & c & Ht & Hn & Hr & _); discriminate).
  destruct (process_data_cases file read_csv to_csv exn_text float_repr K t n r)
    as [(msg & -> & Hnot)|(out & -> & Hready)].
  - left. now exists msg.
  - right. now exists out.
Qed.

(** X14. The message the page shows for each failure: a missing upload gives
    the fixed request for the three files; a missing required column gives
    the engine's own message naming the first missing column, as it is; a
    str among the remit amounts gives the text of the [TypeError] behind
    ["An error occurred: "]. *)
Theorem X14_error_messages (file : Type) (read_csv : file → string + DataFrame)
    (to_csv : list OutputRecord → string) (exn_text : exn → string)
    (float_repr : Q → string) (K : SortKind)
    (top_100_file nadac_file reimbursement_file : option file) :
  let page := app file read_csv to_csv exn_text float_repr K
                top_100_file nadac_file reimbursement_file true in
  ((top_100_file = None ∨ nadac_file = None ∨ reimbursement_file = None) →
   page = widgets ++ [error "Please upload all three required files."]) ∧
  (∀ t n r fr,
     top_100_file = Some t → nadac_file = Some n → reimbursement_file = Some r →
     read_csv t = inr (top_100_data fr) → read_csv n = inr (nadac_data fr) →
     read_csv r = inr (reimbursement_data fr) →
     (∀ name (get : Frames → DataFrame) column,
        List.find (is_missing fr) required_pairs = Some (name, get, column) →
        page = widgets ++ [error (error_message name column)]) ∧
     (has_required_columns fr = true →
      numeric_amounts (reimbursement_data fr) = false →
      page = widgets ++ [error ("An error occurred: " +:+ exn_text TypeError)])).
Proof.
  intros page. subst page. unfold app. split.
  - intros H. destruct top_100_file, nadac_file, reimbursement_file; try reflexivity.
    destruct H as [H|[H|H]]; discriminate.
  - intros t n r fr -> -> -> Ht Hn Hr. unfold process_data. rewrite Ht, Hn, Hr.
    assert (Hfr : {| top_100_data := top_100_data fr;
                     nadac_data := nadac_data fr;
                     reimbursement_data := reimbursement_data fr |} = fr)
      by now destruct fr.
    rewrite Hfr. split.
    + intros name get column Hfind.
      assert (Hrun : process_files_with_adjusted_filtering float_repr K fr
                     = (Stopped (error_message name column), fr)).
      { apply run_stopped. rewrite validate_first_missing. now rewrite Hfind. }
      now rewrite Hrun.
    + intros Hc Hnum. now rewrite (run_type_error float_repr K fr Hc Hnum).
Qed.

Module Page.

  (** Uploads that are tables already, for the examples. *)
Definition read_csv (f : DataFrame) : string + DataFrame := inr f.
Definition to_csv (out : list OutputRecord) : string := "csv".
Definition exn_text (e : exn) : string := "TypeError".

End Page.

Lemma X14_witness :
  app DataFrame Page.read_csv Page.to_csv Page.exn_text Example.float_repr stable_kind
    (Some Example.products) None (Some Example.ledger) true
  = widgets ++ [error "Please upload all three required files."] ∧
  app DataFrame Page.read_csv Page.to_csv Page.exn_text Example.float_repr stable_kind
    (Some (top_100_data TwoMissing.inputs)) (Some (nadac_data TwoMissing.inputs))
    (Some (reimbursement_data TwoMissing.inputs)) true
  = widgets ++ [error (error_message "Top 100" "Drug")] ∧
  app DataFrame Page.read_csv Page.to_csv Page.exn_text Example.float_repr stable_kind
    (Some (top_100_data StrAmount.inputs)) (Some (nadac_data StrAmount.inputs))
    (Some (reimbursement_data StrAmount.inputs)) true
  = widgets ++ [error ("An error occurred: " +:+ Page.exn_text TypeError)].
Proof.
  split; [|split].
  - apply (X14_error_messages DataFrame Page.read_csv Page.to_csv Page.exn_text
             Example.float_repr stable_kind (Some Example.products) None
             (Some Example.ledger)).
    right. left. reflexivity.
  - apply (proj2 (X14_error_messages DataFrame Page.read_csv Page.to_csv Page.exn_text
             Example.float_repr stable_kind
             (Some (top_100_data TwoMissing.inputs)) (Some (nadac_data TwoMissing.inputs))
             (Some (reimbursement_data TwoMissing.inputs)))
             _ _ _ TwoMissing.inputs eq_refl eq_refl eq_refl eq_refl eq_refl eq_refl)
      with (get := top_100_data).
    vm_compute. reflexivity.
  - apply (proj2 (X14_error_messages DataFrame Page.read_csv Page.to_csv Page.exn_text
             Example.float_repr stable_kind
             (Some (top_100_data StrAmount.inputs)) (Some (nadac_data StrAmount.inputs))
             (Some (reimbursement_data StrAmount.inputs)))
             _ _ _ StrAmount.inputs eq_refl eq_refl eq_refl eq_refl eq_refl eq_refl);
      vm_compute; reflexivity.
Defined.
